(** * pdf_rect_picker: coordinate mapping and selection state

    A shallow embedding of [src/pdf_rect_picker.py]: the viewer widget
    ([PdfViewerWidget]) that maps rectangles between widget (screen) space
    and PDF page space and keeps the current selection, and the main window
    ([MainWindow]) that owns the document, the page index and the zoom
    factor.

    Numbers.  Python floats are modelled by exact rationals ([Q]); the
    properties below are the exact-arithmetic ones.  Equality of rationals
    is [Qeq] ([==]); Python's [min]/[max] are [Qmin]/[Qmax], which pick
    their first argument on a tie exactly as Python does.

    Exceptions.  A Python exception that the program does not catch ends
    the run; a fallible operation returns a [result]. *)

From Stdlib Require Import ZArith QArith Qabs Qminmax Qround Lqa Lia.
From Stdlib Require Import List String Ascii Bool DecimalString.
Import ListNotations.

Local Open Scope Q_scope.

(** ** Uncaught exceptions *)

Inductive exn :=
| ZeroDivisionError   (* float division by zero *)
| ValueError          (* fitz: page not in document *)
| TypeError.          (* PyQt: argument has unexpected type *)

Inductive result (A : Type) :=
| Ok (a : A)
| Raise (e : exn).
Arguments Ok {A} a.
Arguments Raise {A} e.

Definition bind {A B} (m : result A) (k : A -> result B) : result B :=
  match m with
  | Ok a => k a
  | Raise e => Raise e
  end.

Notation "x <- m ;; k" := (bind m (fun x => k))
  (at level 61, m at next level, right associativity).

(** ** Text formatting used by the f-strings *)

Definition str_of_N (n : N) : string := NilZero.string_of_uint (N.to_uint n).

(** [str(i)] for a Python int. *)
Definition str_of_Z (z : Z) : string :=
  match z with
  | Zneg p => String "-" (str_of_N (Npos p))
  | _ => str_of_N (Z.to_N z)
  end.

(** Round to the nearest integer, ties to the even one: the rounding of
    Python's fixed-point formatting, which works on the exact value. *)
Definition round_half_even (q : Q) : Z :=
  let f := Qfloor q in
  match Qcompare (q - inject_Z f) (1 # 2) with
  | Lt => f
  | Gt => (f + 1)%Z
  | Eq => if Z.even f then f else (f + 1)%Z
  end.

Definition two_digits (n : Z) : string :=
  if (n <? 10)%Z then String "0" (str_of_Z n) else str_of_Z n.

(** [f"{x:.2f}"]. *)
Definition format_2f (x : Q) : string :=
  let n := round_half_even (Qabs x * 100) in
  ((if Qlt_le_dec x 0 then "-" else "") ++
   str_of_Z (n / 100) ++ "." ++ two_digits (n mod 100))%string.

(** ** The parts of PyMuPDF ([fitz]) the program uses *)

Module Fitz.

Record Rect := mkRect { x0 : Q; y0 : Q; x1 : Q; y1 : Q }.

(** Modelled from the spec: [fitz.Rect.width] and [fitz.Rect.height]
    belong to PyMuPDF, not to this repository.  They are the documented
    [max(0, x1 - x0)] and [max(0, y1 - y0)]: a rectangle whose edges
    cross has width 0, which is what makes a drag entirely outside the
    page yield no selection. *)
Definition width (r : Rect) : Q := Qmax 0 (x1 r - x0 r).
Definition height (r : Rect) : Q := Qmax 0 (y1 r - y0 r).

(** [fitz.Rect.__bool__] of PyMuPDF: false exactly for the rectangle whose
    four coordinates are all 0. *)
Definition truthy (r : Rect) : bool :=
  negb (Qeq_bool (x0 r) 0 && Qeq_bool (y0 r) 0 &&
        Qeq_bool (x1 r) 0 && Qeq_bool (y1 r) 0).

(** What the program reads of the result of [Page.get_pixmap]. *)
Record Pixmap := mkPixmap { pix_width : Z; pix_height : Z }.

(** A page: its rectangle and its renderer (the argument is the scale of
    [fitz.Matrix(scale, scale)]). *)
Record Page := mkPage { rect : Rect; get_pixmap : Q -> Pixmap }.

(** A document is its sequence of pages; [len(doc)] is the page count,
    so a document without pages is falsy. *)
Definition Document := list Page.

Definition page_count (d : Document) : Z := Z.of_nat (List.length d).

Definition doc_truthy (d : Document) : bool :=
  match d with [] => false | _ => true end.

(** [Document.load_page] of PyMuPDF.  A negative page number counts from
    the end (the page count is added until the number is no longer
    negative); a number beyond the last page raises [ValueError]. *)
Definition load_page (d : Document) (page_id : Z) : result Page :=
  let n := page_count d in
  if (n =? 0)%Z then Raise ValueError
  else
    let i := if (page_id <? 0)%Z then (page_id mod n)%Z else page_id in
    match nth_error d (Z.to_nat i) with
    | Some p => Ok p
    | None => Raise ValueError
    end.

End Fitz.

(** ** The parts of Qt the program uses *)

Module Qt.

Record QPoint := mkQPoint { px : Z; py : Z }.
Record QPointF := mkQPointF { pxf : Q; pyf : Q }.
Record QSize := mkQSize { wd : Z; ht : Z }.

(** [QSize()]: the invalid size. *)
Definition QSize_default : QSize := mkQSize (-1) (-1).

(** [qRound]: to the nearest integer, halves away from zero. *)
Definition qRound (d : Q) : Z :=
  if Qle_bool 0 d then Qfloor (d + (1 # 2)) else Qceiling (d - (1 # 2)).

Definition toPoint (p : QPointF) : QPoint :=
  mkQPoint (qRound (pxf p)) (qRound (pyf p)).

(** [QRect] keeps its two corners; the right and bottom edges are
    inclusive, so the width is [x2 - x1 + 1]. *)
Record QRect := mkQRect { rx1 : Z; ry1 : Z; rx2 : Z; ry2 : Z }.

Definition QRect_of_points (tl br : QPoint) : QRect :=
  mkQRect (px tl) (py tl) (px br) (py br).

Definition QRect_of_point_size (tl : QPoint) (s : QSize) : QRect :=
  mkQRect (px tl) (py tl) (px tl + wd s - 1) (py tl + ht s - 1).

Definition QRect_of_xywh (x y w h : Z) : QRect :=
  mkQRect x y (x + w - 1) (y + h - 1).

Definition QRect_width (r : QRect) : Z := rx2 r - rx1 r + 1.
Definition QRect_height (r : QRect) : Z := ry2 r - ry1 r + 1.

Definition QRect_normalized (r : QRect) : QRect :=
  let '(a1, a2) :=
    if (rx2 r <? rx1 r - 1)%Z then (rx2 r + 1, rx1 r - 1)%Z
    else (rx1 r, rx2 r) in
  let '(b1, b2) :=
    if (ry2 r <? ry1 r - 1)%Z then (ry2 r + 1, ry1 r - 1)%Z
    else (ry1 r, ry2 r) in
  mkQRect a1 b1 a2 b2.

(** [QRectF] keeps its top-left corner and its size. *)
Record QRectF := mkQRectF { xp : Q; yp : Q; w : Q; h : Q }.

Definition left (r : QRectF) : Q := xp r.
Definition top (r : QRectF) : Q := yp r.
Definition right (r : QRectF) : Q := xp r + w r.
Definition bottom (r : QRectF) : Q := yp r + h r.

Definition QRectF_of_points (tl br : QPointF) : QRectF :=
  mkQRectF (pxf tl) (pyf tl) (pxf br - pxf tl) (pyf br - pyf tl).

Definition QRectF_of_QRect (r : QRect) : QRectF :=
  mkQRectF (inject_Z (rx1 r)) (inject_Z (ry1 r))
           (inject_Z (QRect_width r)) (inject_Z (QRect_height r)).

Definition QRectF_normalized (r : QRectF) : QRectF :=
  let '(x, ww) := if Qlt_le_dec (w r) 0 then (xp r + w r, - w r)
                  else (xp r, w r) in
  let '(y, hh) := if Qlt_le_dec (h r) 0 then (yp r + h r, - h r)
                  else (yp r, h r) in
  mkQRectF x y ww hh.

Definition toRect (r : QRectF) : QRect :=
  let nxp := qRound (xp r) in
  let nyp := qRound (yp r) in
  let nw := qRound (w r + (xp r - inject_Z nxp) / 2) in
  let nh := qRound (h r + (yp r - inject_Z nyp) / 2) in
  QRect_of_xywh nxp nyp nw nh.

(** A [QPixmap] made from the rendered image: its size is all the
    program reads. *)
Record QPixmap := mkQPixmap { pm_width : Z; pm_height : Z }.

(** The rubber band overlay: its geometry and whether it is shown. *)
Record QRubberBand := mkQRubberBand { geometry : QRect; visible : bool }.

Inductive MouseButton := NoButton | LeftButton | RightButton | MiddleButton.

Definition is_left (b : MouseButton) : bool :=
  match b with LeftButton => true | _ => false end.

Record QMouseEvent := mkQMouseEvent { button : MouseButton; position : QPointF }.

End Qt.

(** Float division: dividing by zero raises. *)
Definition pydiv (a b : Q) : result Q :=
  if Qeq_bool b 0 then Raise ZeroDivisionError else Ok (a / b).

(** ** The viewer widget *)

Module PdfViewerWidget.
Import Fitz Qt.

(** The attributes of the widget, and of the [QWidget] under it the size
    ([self.width()], [self.height()]) and the minimum size. *)
Record t := mk {
  pixmap : option QPixmap;
  page_rect : option Rect;
  scale_factor : Q;
  _pdf_selection : option Rect;
  _rubber_band : QRubberBand;
  _dragging : bool;
  _drag_start : QPoint;
  _selection_widget_rect : option QRectF;
  _viewport_size : QSize;
  size : QSize;
  minimum_size : QSize
}.

(** The payload of the signal [selection_changed]. *)
Definition signal := option Rect.

Definition set_pixmap (v : t) (x : option QPixmap) : t :=
  mk x (page_rect v) (scale_factor v) (_pdf_selection v) (_rubber_band v)
     (_dragging v) (_drag_start v) (_selection_widget_rect v)
     (_viewport_size v) (size v) (minimum_size v).
Definition set_page_rect (v : t) (x : option Rect) : t :=
  mk (pixmap v) x (scale_factor v) (_pdf_selection v) (_rubber_band v)
     (_dragging v) (_drag_start v) (_selection_widget_rect v)
     (_viewport_size v) (size v) (minimum_size v).
Definition set_scale_factor (v : t) (x : Q) : t :=
  mk (pixmap v) (page_rect v) x (_pdf_selection v) (_rubber_band v)
     (_dragging v) (_drag_start v) (_selection_widget_rect v)
     (_viewport_size v) (size v) (minimum_size v).
Definition set_pdf_selection (v : t) (x : option Rect) : t :=
  mk (pixmap v) (page_rect v) (scale_factor v) x (_rubber_band v)
     (_dragging v) (_drag_start v) (_selection_widget_rect v)
     (_viewport_size v) (size v) (minimum_size v).
Definition set_rubber_band (v : t) (x : QRubberBand) : t :=
  mk (pixmap v) (page_rect v) (scale_factor v) (_pdf_selection v) x
     (_dragging v) (_drag_start v) (_selection_widget_rect v)
     (_viewport_size v) (size v) (minimum_size v).
Definition set_dragging (v : t) (x : bool) : t :=
  mk (pixmap v) (page_rect v) (scale_factor v) (_pdf_selection v)
     (_rubber_band v) x (_drag_start v) (_selection_widget_rect v)
     (_viewport_size v) (size v) (minimum_size v).
Definition set_drag_start (v : t) (x : QPoint) : t :=
  mk (pixmap v) (page_rect v) (scale_factor v) (_pdf_selection v)
     (_rubber_band v) (_dragging v) x (_selection_widget_rect v)
     (_viewport_size v) (size v) (minimum_size v).
Definition set_selection_widget_rect (v : t) (x : option QRectF) : t :=
  mk (pixmap v) (page_rect v) (scale_factor v) (_pdf_selection v)
     (_rubber_band v) (_dragging v) (_drag_start v) x
     (_viewport_size v) (size v) (minimum_size v).
Definition set_viewport (v : t) (x : QSize) : t :=
  mk (pixmap v) (page_rect v) (scale_factor v) (_pdf_selection v)
     (_rubber_band v) (_dragging v) (_drag_start v)
     (_selection_widget_rect v) x (size v) (minimum_size v).
Definition set_size (v : t) (x : QSize) : t :=
  mk (pixmap v) (page_rect v) (scale_factor v) (_pdf_selection v)
     (_rubber_band v) (_dragging v) (_drag_start v)
     (_selection_widget_rect v) (_viewport_size v) x (minimum_size v).
Definition set_minimum_size (v : t) (x : QSize) : t :=
  mk (pixmap v) (page_rect v) (scale_factor v) (_pdf_selection v)
     (_rubber_band v) (_dragging v) (_drag_start v)
     (_selection_widget_rect v) (_viewport_size v) (size v) x.

(** The rubber band's own methods. *)
Definition rb_hide (v : t) : t :=
  set_rubber_band v (mkQRubberBand (geometry (_rubber_band v)) false).
Definition rb_show (v : t) : t :=
  set_rubber_band v (mkQRubberBand (geometry (_rubber_band v)) true).
Definition rb_setGeometry (v : t) (g : QRect) : t :=
  set_rubber_band v (mkQRubberBand g (visible (_rubber_band v))).

(** [__init__].  A fresh widget has Qt's default size and its rubber
    band, a fresh child widget, is hidden. *)
Definition init : t :=
  mk None None 1 None
     (mkQRubberBand (QRect_of_xywh 0 0 100 30) false)
     false (mkQPoint 0 0) None QSize_default
     (mkQSize 640 480) (mkQSize 0 0).

Definition image_offsets (v : t) : Q * Q :=
  match pixmap v with
  | None => (0, 0)
  | Some pm =>
      let offset_x := Qmax (inject_Z (wd (size v) - pm_width pm) / 2) 0 in
      let offset_y := Qmax (inject_Z (ht (size v) - pm_height pm) / 2) 0 in
      (offset_x, offset_y)
  end.

Definition _pdf_rect_to_widget (v : t) (rect : Rect) : QRectF :=
  let '(offset_x, offset_y) := image_offsets v in
  let x0 := Fitz.x0 rect * scale_factor v + offset_x in
  let y0 := Fitz.y0 rect * scale_factor v + offset_y in
  let x1 := Fitz.x1 rect * scale_factor v + offset_x in
  let y1 := Fitz.y1 rect * scale_factor v + offset_y in
  QRectF_normalized (QRectF_of_points (mkQPointF x0 y0) (mkQPointF x1 y1)).

Definition _widget_rect_to_pdf (v : t) (rect : QRectF) : result (option Rect) :=
  match page_rect v with
  | None => Ok None
  | Some pr =>
      if negb (truthy pr) then Ok None
      else
        let '(offset_x, offset_y) := image_offsets v in
        x0 <- pydiv (left rect - offset_x) (scale_factor v) ;;
        y0 <- pydiv (top rect - offset_y) (scale_factor v) ;;
        dx <- pydiv (w rect) (scale_factor v) ;;
        let x1 := x0 + dx in
        dy <- pydiv (h rect) (scale_factor v) ;;
        let y1 := y0 + dy in
        (* Normalize and clamp to page bounds *)
        let norm := mkRect (Qmin x0 x1) (Qmin y0 y1) (Qmax x0 x1) (Qmax y0 y1) in
        let clamped := mkRect
          (Qmax (Fitz.x0 pr) (Fitz.x0 norm))
          (Qmax (Fitz.y0 pr) (Fitz.y0 norm))
          (Qmin (Fitz.x1 pr) (Fitz.x1 norm))
          (Qmin (Fitz.y1 pr) (Fitz.y1 norm)) in
        if Qeq_bool (width clamped) 0 || Qeq_bool (height clamped) 0
        then Ok None
        else Ok (Some clamped)
  end.

Definition _update_rubber_band_from_pdf (v : t) : t :=
  match pixmap v, _pdf_selection v with
  | Some _, Some sel =>
      if negb (truthy sel) then rb_hide v
      else
        let rect := _pdf_rect_to_widget v sel in
        if Qle_bool (w rect) 0 || Qle_bool (h rect) 0 then rb_hide v
        else
          let v := set_selection_widget_rect v (Some rect) in
          let v := rb_setGeometry v (toRect rect) in
          rb_show v
  | _, _ => rb_hide v
  end.

Definition resizeEvent (v : t) : t := _update_rubber_band_from_pdf v.

(** [QWidget.resize]: the widget takes the size and receives the resize
    event. *)
Definition resize (v : t) (width height : Z) : t :=
  resizeEvent (set_size v (mkQSize width height)).

Definition _update_widget_size (v : t) : t :=
  match pixmap v with
  | None => v
  | Some pm =>
      let target_width := Z.max (pm_width pm) (wd (_viewport_size v)) in
      let target_height := Z.max (pm_height pm) (ht (_viewport_size v)) in
      let v := set_minimum_size v (mkQSize target_width target_height) in
      resize v target_width target_height
  end.

Definition set_viewport_size (v : t) (sz : QSize) : t :=
  let v := set_viewport v sz in
  let v := _update_widget_size v in
  _update_rubber_band_from_pdf v.

Definition clear_content (v : t) : t :=
  let v := set_pixmap v None in
  let v := set_page_rect v None in
  let v := set_pdf_selection v None in
  let v := set_selection_widget_rect v None in
  rb_hide v.

Definition _render_page_pixmap (page : Page) (scale : Q) : QPixmap :=
  let pix := get_pixmap page scale in
  mkQPixmap (pix_width pix) (pix_height pix).

Definition set_page (v : t) (page : Page) (scale : Q) (keep_selection : bool) : t :=
  let v := set_page_rect v (Some (Fitz.rect page)) in
  let v := set_scale_factor v scale in
  let v := set_pixmap v (Some (_render_page_pixmap page scale)) in
  let v := _update_widget_size v in
  let v := if negb keep_selection then set_pdf_selection v None else v in
  _update_rubber_band_from_pdf v.

Definition mousePressEvent (v : t) (event : QMouseEvent) : t :=
  match is_left (button event), pixmap v with
  | true, Some _ =>
      let v := set_dragging v true in
      let v := set_drag_start v (toPoint (position event)) in
      let v := rb_setGeometry v (QRect_of_point_size (_drag_start v) QSize_default) in
      rb_show v
  | _, _ => v
  end.

Definition mouseMoveEvent (v : t) (event : QMouseEvent) : t :=
  match _dragging v, pixmap v with
  | true, Some _ =>
      let rect := QRect_normalized
                    (QRect_of_points (_drag_start v) (toPoint (position event))) in
      rb_setGeometry v rect
  | _, _ => v
  end.

Definition mouseReleaseEvent (v : t) (event : QMouseEvent) : result (t * list signal) :=
  match is_left (button event) && _dragging v, pixmap v with
  | true, Some _ =>
      let v := set_dragging v false in
      let rect := QRectF_of_QRect
                    (QRect_normalized
                       (QRect_of_points (_drag_start v) (toPoint (position event)))) in
      let v := set_selection_widget_rect v (Some rect) in
      sel <- _widget_rect_to_pdf v rect ;;
      let v := set_pdf_selection v sel in
      let v := _update_rubber_band_from_pdf v in
      Ok (v, [_pdf_selection v])
  | _, _ => Ok (v, [])
  end.

Definition clear_selection (v : t) : t * list signal :=
  let v := set_pdf_selection v None in
  let v := set_selection_widget_rect v None in
  let v := rb_hide v in
  (v, [None]).

Definition current_pdf_rect (v : t) : option Rect := _pdf_selection v.

End PdfViewerWidget.

(** ** The main window *)

(** [Path(path).name] for the path of a chosen file: the text after the
    last slash. *)
Fixpoint path_name_from (s acc : string) : string :=
  match s with
  | EmptyString => acc
  | String c r =>
      if Ascii.eqb c "/" then path_name_from r EmptyString
      else path_name_from r (acc ++ String c EmptyString)%string
  end.

Definition path_name (path : string) : string := path_name_from path EmptyString.

Definition newline : string := String (ascii_of_nat 10) EmptyString.

(** What [fitz.open(path)] does: it returns a document or raises an
    exception, whose text is [msg]. *)
Inductive open_attempt :=
| Opened (d : Fitz.Document)
| OpenError (msg : string).

Module MainWindow.
Import Fitz Qt.

(** Whether each button of [self.buttons] is enabled ([open] always is). *)
Record Buttons := mkButtons {
  btn_prev : bool; btn_next : bool; btn_zoom_in : bool;
  btn_zoom_out : bool; btn_reset_zoom : bool; btn_copy : bool
}.

(** The text of [json_view]: empty, or the [json.dumps] of a page number
    and the four coordinates, kept here as the values dumped. *)
Definition json_text := option (Z * list Q).

(** The attributes of the window; the clipboard and the error dialogs
    shown, which belong to the toolkit; and [emitted], the payloads of
    [selection_changed] in the order they were emitted. *)
Record t := mk {
  doc : option Document;
  current_page_index : Z;
  scale_factor : Q;
  viewer : PdfViewerWidget.t;
  window_title : string;
  rect_label : string;
  size_label : string;
  page_label : string;
  page_info_label : string;
  json_view : json_text;
  buttons : Buttons;
  clipboard : option string;
  message_boxes : list string;
  emitted : list PdfViewerWidget.signal
}.

Definition set_doc (m : t) (x : option Document) : t :=
  mk x (current_page_index m) (scale_factor m) (viewer m) (window_title m)
     (rect_label m) (size_label m) (page_label m) (page_info_label m)
     (json_view m) (buttons m) (clipboard m) (message_boxes m) (emitted m).
Definition set_current_page_index (m : t) (x : Z) : t :=
  mk (doc m) x (scale_factor m) (viewer m) (window_title m)
     (rect_label m) (size_label m) (page_label m) (page_info_label m)
     (json_view m) (buttons m) (clipboard m) (message_boxes m) (emitted m).
Definition set_scale_factor (m : t) (x : Q) : t :=
  mk (doc m) (current_page_index m) x (viewer m) (window_title m)
     (rect_label m) (size_label m) (page_label m) (page_info_label m)
     (json_view m) (buttons m) (clipboard m) (message_boxes m) (emitted m).
Definition set_viewer (m : t) (x : PdfViewerWidget.t) : t :=
  mk (doc m) (current_page_index m) (scale_factor m) x (window_title m)
     (rect_label m) (size_label m) (page_label m) (page_info_label m)
     (json_view m) (buttons m) (clipboard m) (message_boxes m) (emitted m).
Definition set_window_title (m : t) (x : string) : t :=
  mk (doc m) (current_page_index m) (scale_factor m) (viewer m) x
     (rect_label m) (size_label m) (page_label m) (page_info_label m)
     (json_view m) (buttons m) (clipboard m) (message_boxes m) (emitted m).
Definition set_selection_texts (m : t) (r s : string) (j : json_text) : t :=
  mk (doc m) (current_page_index m) (scale_factor m) (viewer m)
     (window_title m) r s (page_label m) (page_info_label m)
     j (buttons m) (clipboard m) (message_boxes m) (emitted m).
Definition set_page_labels (m : t) (x : string) : t :=
  mk (doc m) (current_page_index m) (scale_factor m) (viewer m)
     (window_title m) (rect_label m) (size_label m) x x
     (json_view m) (buttons m) (clipboard m) (message_boxes m) (emitted m).
Definition set_buttons (m : t) (x : Buttons) : t :=
  mk (doc m) (current_page_index m) (scale_factor m) (viewer m)
     (window_title m) (rect_label m) (size_label m) (page_label m)
     (page_info_label m) (json_view m) x (clipboard m) (message_boxes m)
     (emitted m).
Definition set_clipboard (m : t) (x : option string) : t :=
  mk (doc m) (current_page_index m) (scale_factor m) (viewer m)
     (window_title m) (rect_label m) (size_label m) (page_label m)
     (page_info_label m) (json_view m) (buttons m) x (message_boxes m)
     (emitted m).
Definition show_message_box (m : t) (x : string) : t :=
  mk (doc m) (current_page_index m) (scale_factor m) (viewer m)
     (window_title m) (rect_label m) (size_label m) (page_label m)
     (page_info_label m) (json_view m) (buttons m) (clipboard m)
     (message_boxes m ++ [x]) (emitted m).
Definition record_emitted (m : t) (x : PdfViewerWidget.signal) : t :=
  mk (doc m) (current_page_index m) (scale_factor m) (viewer m)
     (window_title m) (rect_label m) (size_label m) (page_label m)
     (page_info_label m) (json_view m) (buttons m) (clipboard m)
     (message_boxes m) (emitted m ++ [x]).

(** The truthiness of [self.doc]. *)
Definition has_pages (m : t) : bool :=
  match doc m with
  | Some d => doc_truthy d
  | None => false
  end.

(** [setEnabled] takes a bool.  In [has_doc and self.doc and ...] a
    document without pages is itself the value of the expression, and
    PyQt refuses it. *)
Definition _update_controls (m : t) : result t :=
  let has_doc := match doc m with Some _ => true | None => false end in
  let has_rect :=
    match PdfViewerWidget.current_pdf_rect (viewer m) with
    | Some _ => true
    | None => false
    end in
  let prev := has_doc && (0 <? current_page_index m)%Z in
  next <- match doc m with
          | None => Ok false
          | Some d =>
              if doc_truthy d
              then Ok (current_page_index m <? page_count d - 1)%Z
              else Raise TypeError
          end ;;
  Ok (set_buttons m (mkButtons prev next has_doc has_doc has_doc has_rect)).

Definition update_selection_info (m : t) (rect : option Rect) : result t :=
  let m :=
    match rect with
    | Some r =>
        if truthy r then
          set_selection_texts m
            ("Rect: (" ++ format_2f (x0 r) ++ ", " ++ format_2f (y0 r) ++ ", "
               ++ format_2f (x1 r) ++ ", " ++ format_2f (y1 r) ++ ")")%string
            ("Size: " ++ format_2f (width r) ++ " x " ++ format_2f (height r))%string
            (Some ((current_page_index m + 1)%Z, [x0 r; y0 r; x1 r; y1 r]))
        else set_selection_texts m "Rect: -" "Size: -" None
    | None => set_selection_texts m "Rect: -" "Size: -" None
    end in
  _update_controls m.

(** Delivery of the [selection_changed] emissions of the viewer to the
    connected slot, [update_selection_info]. *)
Fixpoint deliver (m : t) (sigs : list PdfViewerWidget.signal) : result t :=
  match sigs with
  | [] => Ok m
  | s :: rest =>
      m <- update_selection_info (record_emitted m s) s ;;
      deliver m rest
  end.

(** [__init__]: the labels, then [_build_ui], which ends with
    [_update_controls]. *)
Definition init : t :=
  mk None 0 1 PdfViewerWidget.init "PDF Rect Picker"
     "Rect: -" "Size: -" "Page: -" "Page: -" None
     (mkButtons false false false false false false)
     None [] [].

Definition clear_selection (m : t) : result t :=
  let '(v, sigs) := PdfViewerWidget.clear_selection (viewer m) in
  deliver (set_viewer m v) sigs.

Definition load_page (m : t) (keep_selection : bool) : result t :=
  match doc m with
  | None => Ok m
  | Some d =>
      if negb (doc_truthy d) then Ok m
      else
        page <- Fitz.load_page d (current_page_index m) ;;
        let m := set_viewer m
                   (PdfViewerWidget.set_page (viewer m) page (scale_factor m)
                      keep_selection) in
        let m := set_page_labels m
                   ("Page: " ++ str_of_Z (current_page_index m + 1) ++ " / "
                      ++ str_of_Z (page_count d))%string in
        if negb keep_selection then clear_selection m else Ok m
  end.

Definition open_pdf (m : t) (path : string) (attempt : open_attempt) : result t :=
  if String.eqb path "" then Ok m
  else
    match attempt with
    | OpenError exc =>
        Ok (show_message_box m ("Failed to open PDF:" ++ newline ++ exc)%string)
    | Opened d =>
        let m := set_doc m (Some d) in
        let m := set_current_page_index m 0 in
        let m := set_scale_factor m 1 in
        m <- load_page m false ;;
        let m := set_window_title m ("PDF Rect Picker - " ++ path_name path)%string in
        _update_controls m
    end.

Definition next_page (m : t) : result t :=
  match doc m with
  | Some d =>
      if doc_truthy d && (current_page_index m <? page_count d - 1)%Z then
        let m := set_current_page_index m (current_page_index m + 1) in
        m <- load_page m false ;;
        _update_controls m
      else Ok m
  | None => Ok m
  end.

Definition prev_page (m : t) : result t :=
  if has_pages m && (0 <? current_page_index m)%Z then
    let m := set_current_page_index m (current_page_index m - 1) in
    m <- load_page m false ;;
    _update_controls m
  else Ok m.

Definition zoom_in (m : t) : result t :=
  if negb (has_pages m) then Ok m
  else
    let m := set_scale_factor m (Qmin (scale_factor m * (5 # 4)) 6) in
    load_page m true.

Definition zoom_out (m : t) : result t :=
  if negb (has_pages m) then Ok m
  else
    let m := set_scale_factor m (Qmax (scale_factor m / (5 # 4)) (1 # 5)) in
    load_page m true.

Definition reset_zoom (m : t) : result t :=
  if negb (has_pages m) then Ok m
  else
    let m := set_scale_factor m 1 in
    load_page m true.

Definition copy_rect (m : t) : t :=
  match PdfViewerWidget.current_pdf_rect (viewer m) with
  | Some r =>
      if truthy r then
        let rect_text :=
          ("fitz.Rect(" ++ format_2f (x0 r) ++ ", " ++ format_2f (y0 r) ++ ", "
             ++ format_2f (x1 r) ++ ", " ++ format_2f (y1 r) ++ ")")%string in
        set_clipboard m (Some rect_text)
      else m
  | None => m
  end.

(** The events the window and its viewer react to. *)
Inductive command :=
| OpenPdf (path : string) (attempt : open_attempt)
| PrevPage
| NextPage
| ZoomIn
| ZoomOut
| ResetZoom
| CopyRect
| ClearSelection
| MousePress (event : QMouseEvent)
| MouseMove (event : QMouseEvent)
| MouseRelease (event : QMouseEvent)
| ViewportResized (sz : QSize)
| WidgetResized (sz : QSize).

Definition step (m : t) (c : command) : result t :=
  match c with
  | OpenPdf path attempt => open_pdf m path attempt
  | PrevPage => prev_page m
  | NextPage => next_page m
  | ZoomIn => zoom_in m
  | ZoomOut => zoom_out m
  | ResetZoom => reset_zoom m
  | CopyRect => Ok (copy_rect m)
  | ClearSelection => clear_selection m
  | MousePress e => Ok (set_viewer m (PdfViewerWidget.mousePressEvent (viewer m) e))
  | MouseMove e => Ok (set_viewer m (PdfViewerWidget.mouseMoveEvent (viewer m) e))
  | MouseRelease e =>
      r <- PdfViewerWidget.mouseReleaseEvent (viewer m) e ;;
      deliver (set_viewer m (fst r)) (snd r)
  | ViewportResized sz =>
      Ok (set_viewer m (PdfViewerWidget.set_viewport_size (viewer m) sz))
  | WidgetResized sz =>
      Ok (set_viewer m (PdfViewerWidget.resize (viewer m) (wd sz) (ht sz)))
  end.

Fixpoint run (m : t) (cs : list command) : result t :=
  match cs with
  | [] => Ok m
  | c :: rest => m <- step m c ;; run m rest
  end.

End MainWindow.

(** ** Properties of states and rectangles *)

Import Fitz Qt.

(** Equality of rectangles as rationals. *)
Definition rect_eq (a b : Rect) : Prop :=
  x0 a == x0 b /\ y0 a == y0 b /\ x1 a == x1 b /\ y1 a == y1 b.

(** [r] lies within the bounds [pg]. *)
Definition rect_inside (pg r : Rect) : Prop :=
  x0 pg <= x0 r /\ x1 r <= x1 pg /\ y0 pg <= y0 r /\ y1 r <= y1 pg.

Definition rect_normalized (r : Rect) : Prop := x0 r <= x1 r /\ y0 r <= y1 r.

(** The stored selection is absent, or it is normalized, within the page
    the viewer shows, and of nonzero width and height. *)
Definition selection_ok (v : PdfViewerWidget.t) : Prop :=
  match PdfViewerWidget._pdf_selection v with
  | None => True
  | Some r =>
      exists pg, PdfViewerWidget.page_rect v = Some pg /\
                 rect_normalized r /\ rect_inside pg r /\
                 ~ width r == 0 /\ ~ height r == 0
  end.

(** The page number is one of the document's. *)
Definition index_in_range (m : MainWindow.t) : Prop :=
  match MainWindow.doc m with
  | None => True
  | Some d => (0 <= MainWindow.current_page_index m < page_count d)%Z
  end.

(** The viewer shows the page of the document the window is at, at the
    window's scale. *)
Definition viewer_in_step (m : MainWindow.t) : Prop :=
  PdfViewerWidget.scale_factor (MainWindow.viewer m) = MainWindow.scale_factor m /\
  match MainWindow.doc m with
  | None => True
  | Some d =>
      exists p, nth_error d (Z.to_nat (MainWindow.current_page_index m)) = Some p /\
                PdfViewerWidget.page_rect (MainWindow.viewer m) = Some (rect p)
  end.

Definition scale_in_bounds (s : Q) : Prop := (1 # 5) <= s /\ s <= 6.

(** What holds of every state the program reaches. *)
Record consistent (m : MainWindow.t) : Prop := mkConsistent {
  c_index : index_in_range m;
  c_viewer : viewer_in_step m;
  c_scale : scale_in_bounds (MainWindow.scale_factor m);
  c_selection : selection_ok (MainWindow.viewer m)
}.

Definition is_zoom (c : MainWindow.command) : Prop :=
  match c with
  | MainWindow.ZoomIn | MainWindow.ZoomOut | MainWindow.ResetZoom => True
  | _ => False
  end.

(** The text of the spec for a copied rectangle. *)
Definition documented_rect_text (r : Rect) : string :=
  ("Rect(" ++ format_2f (x0 r) ++ ", " ++ format_2f (y0 r) ++ ", "
     ++ format_2f (x1 r) ++ ", " ++ format_2f (y1 r) ++ ")")%string.

(** The steps of the spec's [screenToPage], in its words: undo the offset
    and the scale at both corners, normalize, clamp each edge. *)
Definition candidate (scale ox oy : Q) (s : QRectF) : Rect :=
  mkRect ((left s - ox) / scale) ((top s - oy) / scale)
         ((right s - ox) / scale) ((bottom s - oy) / scale).

Definition normalize (r : Rect) : Rect :=
  mkRect (Qmin (x0 r) (x1 r)) (Qmin (y0 r) (y1 r))
         (Qmax (x0 r) (x1 r)) (Qmax (y0 r) (y1 r)).

Definition clamp (pg r : Rect) : Rect :=
  mkRect (Qmax (x0 pg) (x0 r)) (Qmax (y0 pg) (y0 r))
         (Qmin (x1 pg) (x1 r)) (Qmin (y1 pg) (y1 r)).

(** The screen rectangle [s] does not meet the inside of [raster]. *)
Definition fully_outside (raster s : QRectF) : Prop :=
  right s <= left raster \/ right raster <= left s \/
  bottom s <= top raster \/ bottom raster <= top s.

(** ** Auxiliary notions of the proofs *)

(** The attributes the geometry and the selection depend on. *)
Definition same_core (v v' : PdfViewerWidget.t) : Prop :=
  PdfViewerWidget.pixmap v' = PdfViewerWidget.pixmap v /\
  PdfViewerWidget.page_rect v' = PdfViewerWidget.page_rect v /\
  PdfViewerWidget.scale_factor v' = PdfViewerWidget.scale_factor v /\
  PdfViewerWidget._pdf_selection v' = PdfViewerWidget._pdf_selection v.

(** The attributes of the window that [consistent] speaks of, apart from
    the viewer. *)
Definition same_document (m m' : MainWindow.t) : Prop :=
  MainWindow.doc m' = MainWindow.doc m /\
  MainWindow.current_page_index m' = MainWindow.current_page_index m /\
  MainWindow.scale_factor m' = MainWindow.scale_factor m.

(** Opening a document that has pages, or any other command. *)
Definition opens_pages (c : MainWindow.command) : Prop :=
  match c with
  | MainWindow.OpenPdf _ (Opened []) => False
  | _ => True
  end.

Definition page_label_text (m : MainWindow.t) (d : Document) : string :=
  ("Page: " ++ str_of_Z (MainWindow.current_page_index m + 1) ++ " / "
     ++ str_of_Z (page_count d))%string.

(** The window after [set_page] and the labels of [load_page]. *)
Definition page_shown (m : MainWindow.t) (d : Document) (p : Page) (keep : bool)
  : MainWindow.t :=
  MainWindow.set_page_labels
    (MainWindow.set_viewer m
       (PdfViewerWidget.set_page (MainWindow.viewer m) p
          (MainWindow.scale_factor m) keep))
    (page_label_text m d).

(** The corners [x0, y0, x1, y1] that [_widget_rect_to_pdf] computes
    before it normalizes and clamps. *)
Definition corners (v : PdfViewerWidget.t) (s : QRectF) : Rect :=
  let '(offset_x, offset_y) := PdfViewerWidget.image_offsets v in
  let cx0 := (left s - offset_x) / PdfViewerWidget.scale_factor v in
  let cy0 := (top s - offset_y) / PdfViewerWidget.scale_factor v in
  mkRect cx0 cy0 (cx0 + w s / PdfViewerWidget.scale_factor v)
         (cy0 + h s / PdfViewerWidget.scale_factor v).

Ltac minmax_step :=
  match goal with
  | |- context [Qmax ?a ?b] =>
      let m := fresh "m" in
      pose proof (Q.max_spec a b); set (m := Qmax a b) in *; clearbody m
  | |- context [Qmin ?a ?b] =>
      let m := fresh "m" in
      pose proof (Q.min_spec a b); set (m := Qmin a b) in *; clearbody m
  | H : context [Qmax ?a ?b] |- _ =>
      let m := fresh "m" in
      pose proof (Q.max_spec a b); set (m := Qmax a b) in *; clearbody m
  | H : context [Qmin ?a ?b] |- _ =>
      let m := fresh "m" in
      pose proof (Q.min_spec a b); set (m := Qmin a b) in *; clearbody m
  end.

(** Linear arithmetic over [Qmin] and [Qmax]. *)
Ltac minmax := repeat minmax_step; lra.

Ltac split_cases :=
  repeat match goal with
         | |- context [match ?x with _ => _ end] => destruct x
         end.

(** ** Further notions: what the window shows *)

(** The buttons as [_update_controls] sets them from the document, the
    page number and the stored selection. *)
Definition expected_buttons (m : MainWindow.t) : MainWindow.Buttons :=
  let has_doc := match MainWindow.doc m with Some _ => true | None => false end in
  let has_rect :=
    match PdfViewerWidget._pdf_selection (MainWindow.viewer m) with
    | Some _ => true
    | None => false
    end in
  MainWindow.mkButtons
    (has_doc && (0 <? MainWindow.current_page_index m)%Z)
    (match MainWindow.doc m with
     | Some d => (MainWindow.current_page_index m <? page_count d - 1)%Z
     | None => false
     end)
    has_doc has_doc has_doc has_rect.

(** The readout of a selection on the page numbered [i] (from 0): the two
    labels and the JSON view. *)
Definition readout (i : Z) (sel : option Rect)
  : string * string * MainWindow.json_text :=
  match sel with
  | Some r =>
      if truthy r then
        (("Rect: (" ++ format_2f (x0 r) ++ ", " ++ format_2f (y0 r) ++ ", "
            ++ format_2f (x1 r) ++ ", " ++ format_2f (y1 r) ++ ")")%string,
         ("Size: " ++ format_2f (width r) ++ " x " ++ format_2f (height r))%string,
         Some ((i + 1)%Z, [x0 r; y0 r; x1 r; y1 r]))
      else ("Rect: -"%string, "Size: -"%string, None)
  | None => ("Rect: -"%string, "Size: -"%string, None)
  end.

(** The labels and the JSON view show the stored selection, and the last
    notification carried it. *)
Definition readout_in_sync (m : MainWindow.t) : Prop :=
  (MainWindow.rect_label m, MainWindow.size_label m, MainWindow.json_view m) =
    readout (MainWindow.current_page_index m)
      (PdfViewerWidget._pdf_selection (MainWindow.viewer m)) /\
  last (MainWindow.emitted m) None =
    PdfViewerWidget._pdf_selection (MainWindow.viewer m).

Definition buttons_in_sync (m : MainWindow.t) : Prop :=
  MainWindow.buttons m = expected_buttons m.

(** The attributes [readout_in_sync] and [buttons_in_sync] speak of. *)
Definition same_presentation (m m' : MainWindow.t) : Prop :=
  MainWindow.doc m' = MainWindow.doc m /\
  MainWindow.current_page_index m' = MainWindow.current_page_index m /\
  PdfViewerWidget._pdf_selection (MainWindow.viewer m') =
    PdfViewerWidget._pdf_selection (MainWindow.viewer m) /\
  MainWindow.rect_label m' = MainWindow.rect_label m /\
  MainWindow.size_label m' = MainWindow.size_label m /\
  MainWindow.json_view m' = MainWindow.json_view m /\
  MainWindow.buttons m' = MainWindow.buttons m /\
  MainWindow.emitted m' = MainWindow.emitted m.

(** The pointer moves of a drag, in order. *)
Definition moves (v : PdfViewerWidget.t) (es : list QMouseEvent) : PdfViewerWidget.t :=
  fold_left PdfViewerWidget.mouseMoveEvent es v.

(** The widget rectangle between the point of the press and the point of
    the release, as [mouseReleaseEvent] builds it. *)
Definition drag_rect (a b : QPoint) : QRectF :=
  QRectF_of_QRect (QRect_normalized (QRect_of_points a b)).

(** Equality of widget rectangles as rationals. *)
Definition qrectf_eq (a b : QRectF) : Prop :=
  xp a == xp b /\ yp a == yp b /\ w a == w b /\ h a == h b.

(** After a zoom from [m] to [m'] with the selection [r]: nobody was
    notified, and the rubber band is shown at the image of [r] under the
    new scale and offsets. *)
Definition overlay_reprojected (m m' : MainWindow.t) (r : Rect) : Prop :=
  MainWindow.emitted m' = MainWindow.emitted m /\
  PdfViewerWidget.scale_factor (MainWindow.viewer m') = MainWindow.scale_factor m' /\
  visible (PdfViewerWidget._rubber_band (MainWindow.viewer m')) = true /\
  geometry (PdfViewerWidget._rubber_band (MainWindow.viewer m'))
    = toRect (PdfViewerWidget._pdf_rect_to_widget (MainWindow.viewer m') r).

(** ** Sample documents and states *)

Module Samples.

(** A page of the given size at the origin, rendered at the ceiling of
    its scaled size. *)
Definition page (pw ph : Q) : Page :=
  mkPage (mkRect 0 0 pw ph)
         (fun s => mkPixmap (Qceiling (pw * s)) (Qceiling (ph * s))).

Definition one_page : Document := [page 200 200].
Definition two_pages : Document := [page 200 200; page 100 50].

Definition mouse (b : MouseButton) (x y : Q) : QMouseEvent :=
  mkQMouseEvent b (mkQPointF x y).

(** Open a document and drag from (10,10) to (49,49). *)
Definition open_and_drag (d : Document) : list MainWindow.command :=
  [MainWindow.OpenPdf "/home/user/a.pdf" (Opened d);
   MainWindow.MousePress (mouse LeftButton 10 10);
   MainWindow.MouseMove (mouse NoButton 30 30);
   MainWindow.MouseRelease (mouse LeftButton 49 49)].

Definition state_of (r : result MainWindow.t) : MainWindow.t :=
  match r with
  | Ok m => m
  | Raise _ => MainWindow.init
  end.

Definition committed_one_page : MainWindow.t :=
  state_of (MainWindow.run MainWindow.init (open_and_drag one_page)).

Definition committed_two_pages : MainWindow.t :=
  state_of (MainWindow.run MainWindow.init (open_and_drag two_pages)).

(** On the second of two pages, with a selection dragged there. *)
Definition committed_second_page : MainWindow.t :=
  state_of (MainWindow.run committed_two_pages
              [MainWindow.NextPage;
               MainWindow.MousePress (mouse LeftButton 10 10);
               MainWindow.MouseRelease (mouse LeftButton 49 49)]).

Definition rect_10_50 : Rect := mkRect 10 10 50 50.

End Samples.

(** ** Pointer events without a page *)

(** C10.  While the viewer has no pixmap, a press, a move and a release
    each leave the whole viewer as it was (so the dragging flag and the
    stored selection too) and emit nothing; and without a page rectangle
    the conversion from widget to page space yields no rectangle, whatever
    the widget rectangle. *)
Theorem pointer_events_without_pixmap :
  forall (v : PdfViewerWidget.t) (e : QMouseEvent),
    PdfViewerWidget.pixmap v = None ->
    PdfViewerWidget.mousePressEvent v e = v /\
    PdfViewerWidget.mouseMoveEvent v e = v /\
    PdfViewerWidget.mouseReleaseEvent v e = Ok (v, []) /\
    (PdfViewerWidget.page_rect v = None ->
     forall s, PdfViewerWidget._widget_rect_to_pdf v s = Ok None).
Proof.
  intros v e Hpix.
  unfold PdfViewerWidget.mousePressEvent, PdfViewerWidget.mouseMoveEvent,
    PdfViewerWidget.mouseReleaseEvent, PdfViewerWidget._widget_rect_to_pdf.
  rewrite Hpix.
  repeat split.
  - now destruct (is_left (button e)).
  - now destruct (PdfViewerWidget._dragging v).
  - now destruct (is_left (button e) && PdfViewerWidget._dragging v).
  - intros Hpage s. now rewrite Hpage.
Qed.

(** A drag is under way and the page is gone: the release commits nothing. *)
Lemma pointer_events_without_pixmap_witness :
  let v := PdfViewerWidget.clear_content
             (PdfViewerWidget.mousePressEvent
                (MainWindow.viewer Samples.committed_one_page)
                (Samples.mouse LeftButton 5 5)) in
  let e := Samples.mouse LeftButton 60 60 in
  PdfViewerWidget._dragging v = true /\
  PdfViewerWidget.mousePressEvent v e = v /\
  PdfViewerWidget.mouseMoveEvent v e = v /\
  PdfViewerWidget.mouseReleaseEvent v e = Ok (v, []) /\
  forall s, PdfViewerWidget._widget_rect_to_pdf v s = Ok None.
Proof.
  intros v e. split; [reflexivity|].
  destruct (pointer_events_without_pixmap v e eq_refl) as (H1 & H2 & H3 & H4).
  split; [exact H1|]. split; [exact H2|]. split; [exact H3|].
  exact (H4 eq_refl).
Defined.

(** ** Clearing and copying the selection *)

Lemma update_controls_ok :
  forall m, MainWindow.doc m <> Some [] ->
    exists b, MainWindow._update_controls m = Ok (MainWindow.set_buttons m b).
Proof.
  intros m Hd. unfold MainWindow._update_controls.
  destruct (MainWindow.doc m) as [[|p d]|]; simpl; eauto.
  now elim Hd.
Qed.

Lemma update_selection_info_none :
  forall m, MainWindow.doc m <> Some [] ->
    exists b,
      MainWindow.update_selection_info m None =
        Ok (MainWindow.set_buttons
              (MainWindow.set_selection_texts m "Rect: -" "Size: -" None) b).
Proof.
  intros m Hd. unfold MainWindow.update_selection_info.
  apply update_controls_ok. exact Hd.
Qed.

(** What [clear_selection] of the window does to the state. *)
Lemma window_clear_selection_ok :
  forall m, MainWindow.doc m <> Some [] ->
    exists m',
      MainWindow.clear_selection m = Ok m' /\
      MainWindow.viewer m' =
        fst (PdfViewerWidget.clear_selection (MainWindow.viewer m)) /\
      MainWindow.emitted m' = (MainWindow.emitted m ++ [None])%list /\
      MainWindow.doc m' = MainWindow.doc m /\
      MainWindow.current_page_index m' = MainWindow.current_page_index m /\
      MainWindow.scale_factor m' = MainWindow.scale_factor m /\
      MainWindow.rect_label m' = "Rect: -"%string.
Proof.
  intros m Hd. unfold MainWindow.clear_selection. cbn [PdfViewerWidget.clear_selection].
  cbn [MainWindow.deliver].
  match goal with
  | |- context [MainWindow.update_selection_info ?x None] =>
      destruct (update_selection_info_none x Hd) as [b Hb]; rewrite Hb
  end.
  cbn [bind]. eexists; split; [reflexivity|]. cbn. repeat split.
Qed.

(** C9.  [clear_selection] of the viewer always leaves the selection
    absent and always emits [selection_changed] once, with [None],
    whether a selection was stored or not; and in every state of the
    window whose document, if any, has pages, [clear_selection] of the
    window returns, leaves the selection absent, and the one emission
    with [None] is added to those made. *)
Theorem clear_selection_always_emits :
  (forall v : PdfViewerWidget.t,
      PdfViewerWidget._pdf_selection (fst (PdfViewerWidget.clear_selection v)) = None /\
      snd (PdfViewerWidget.clear_selection v) = [None]) /\
  (forall m : MainWindow.t,
      MainWindow.doc m <> Some [] ->
      exists m',
        MainWindow.clear_selection m = Ok m' /\
        PdfViewerWidget._pdf_selection (MainWindow.viewer m') = None /\
        MainWindow.emitted m' = (MainWindow.emitted m ++ [None])%list).
Proof.
  split.
  - intro v. split; reflexivity.
  - intros m Hd.
    destruct (window_clear_selection_ok m Hd) as (m' & Hrun & Hv & Hem & _).
    exists m'. repeat split; [exact Hrun| |exact Hem].
    rewrite Hv. reflexivity.
Qed.

(** From the idle state of a fresh window: nothing selected, and the
    notification is emitted all the same. *)
Lemma clear_selection_always_emits_witness :
  PdfViewerWidget._pdf_selection (MainWindow.viewer MainWindow.init) = None /\
  exists m',
    MainWindow.clear_selection MainWindow.init = Ok m' /\
    PdfViewerWidget._pdf_selection (MainWindow.viewer m') = None /\
    MainWindow.emitted m' = (MainWindow.emitted MainWindow.init ++ [None])%list.
Proof.
  split; [reflexivity|].
  apply (proj2 clear_selection_always_emits MainWindow.init).
  discriminate.
Defined.

(** C7, as the code has it.  Without a stored selection [copy_rect]
    changes nothing; with a stored selection of nonzero width it puts on
    the clipboard the text [fitz.Rect(x0, y0, x1, y1)], each coordinate
    with two decimals, and changes nothing else. *)
Theorem copy_rect_text :
  forall m : MainWindow.t,
    (PdfViewerWidget._pdf_selection (MainWindow.viewer m) = None ->
     MainWindow.copy_rect m = m) /\
    (forall r,
        PdfViewerWidget._pdf_selection (MainWindow.viewer m) = Some r ->
        ~ width r == 0 ->
        MainWindow.copy_rect m =
          MainWindow.set_clipboard m (Some ("fitz." ++ documented_rect_text r)%string)).
Proof.
  intro m. unfold MainWindow.copy_rect, PdfViewerWidget.current_pdf_rect. split.
  - intros ->. reflexivity.
  - intros r -> Hw.
    assert (Ht : truthy r = true).
    { unfold truthy. apply negb_true_iff.
      destruct (Qeq_bool (x0 r) 0) eqn:E0; [|reflexivity].
      destruct (Qeq_bool (y0 r) 0); [|reflexivity].
      destruct (Qeq_bool (x1 r) 0) eqn:E1; [|reflexivity].
      exfalso. apply Hw. apply Qeq_bool_eq in E0, E1.
      unfold width. rewrite E0, E1. reflexivity. }
    rewrite Ht. reflexivity.
Qed.

Lemma copy_rect_text_witness :
  (PdfViewerWidget._pdf_selection (MainWindow.viewer MainWindow.init) = None /\
   MainWindow.copy_rect MainWindow.init = MainWindow.init) /\
  MainWindow.clipboard (MainWindow.copy_rect Samples.committed_one_page) =
    Some "fitz.Rect(10.00, 10.00, 50.00, 50.00)"%string.
Proof.
  split.
  - split; [reflexivity|].
    apply (proj1 (copy_rect_text MainWindow.init)). reflexivity.
  - rewrite (proj2 (copy_rect_text Samples.committed_one_page)
               (mkRect (20 # 2) (20 # 2) (100 # 2) (100 # 2))).
    + reflexivity.
    + reflexivity.
    + intro H. vm_compute in H. discriminate H.
Defined.

(** C7 as stated fails: the selection is (10, 10, 50, 50) and the text on
    the clipboard is not [Rect(10.00, 10.00, 50.00, 50.00)]. *)
Lemma copy_rect_text_is_not_documented :
  PdfViewerWidget._pdf_selection (MainWindow.viewer Samples.committed_one_page)
    = Some (mkRect (20 # 2) (20 # 2) (100 # 2) (100 # 2)) /\
  documented_rect_text (mkRect (20 # 2) (20 # 2) (100 # 2) (100 # 2))
    = "Rect(10.00, 10.00, 50.00, 50.00)"%string /\
  MainWindow.clipboard (MainWindow.copy_rect Samples.committed_one_page)
    = Some "fitz.Rect(10.00, 10.00, 50.00, 50.00)"%string /\
  MainWindow.clipboard (MainWindow.copy_rect Samples.committed_one_page)
    <> Some "Rect(10.00, 10.00, 50.00, 50.00)"%string.
Proof.
  repeat split; try reflexivity.
  vm_compute. discriminate.
Qed.

(** ** Opening a document *)

(** C8.  When a file was chosen and [fitz.open] raises, [open_pdf]
    returns; it shows one error dialog, with the text of the exception;
    and the document, the page number, the scale, the viewer (hence the
    stored selection) and every other attribute are as before. *)
Theorem open_failure_keeps_state :
  forall (m : MainWindow.t) (path msg : string),
    path <> ""%string ->
    exists m',
      MainWindow.open_pdf m path (OpenError msg) = Ok m' /\
      MainWindow.message_boxes m' =
        (MainWindow.message_boxes m
           ++ [("Failed to open PDF:" ++ newline ++ msg)%string])%list /\
      MainWindow.doc m' = MainWindow.doc m /\
      MainWindow.current_page_index m' = MainWindow.current_page_index m /\
      MainWindow.scale_factor m' = MainWindow.scale_factor m /\
      MainWindow.viewer m' = MainWindow.viewer m /\
      PdfViewerWidget._pdf_selection (MainWindow.viewer m') =
        PdfViewerWidget._pdf_selection (MainWindow.viewer m) /\
      MainWindow.emitted m' = MainWindow.emitted m /\
      MainWindow.clipboard m' = MainWindow.clipboard m.
Proof.
  intros m path msg Hpath. unfold MainWindow.open_pdf.
  destruct (String.eqb path "") eqn:E.
  - apply String.eqb_eq in E. contradiction.
  - eexists. split; [reflexivity|]. cbn. repeat split.
Qed.

(** A document is loaded, zoomed and has a selection; the next file fails
    to open. *)
Lemma open_failure_keeps_state_witness :
  let m := Samples.state_of (MainWindow.zoom_in Samples.committed_two_pages) in
  MainWindow.doc m = Some Samples.two_pages /\
  exists m',
    MainWindow.open_pdf m "/tmp/broken.pdf" (OpenError "cannot open") = Ok m' /\
    MainWindow.message_boxes m' =
      (MainWindow.message_boxes m
         ++ [("Failed to open PDF:" ++ newline ++ "cannot open")%string])%list /\
    MainWindow.doc m' = MainWindow.doc m /\
    MainWindow.current_page_index m' = MainWindow.current_page_index m /\
    MainWindow.scale_factor m' = MainWindow.scale_factor m /\
    MainWindow.viewer m' = MainWindow.viewer m /\
    PdfViewerWidget._pdf_selection (MainWindow.viewer m') =
      PdfViewerWidget._pdf_selection (MainWindow.viewer m) /\
    MainWindow.emitted m' = MainWindow.emitted m /\
    MainWindow.clipboard m' = MainWindow.clipboard m.
Proof.
  split; [reflexivity|].
  apply open_failure_keeps_state. discriminate.
Defined.

(** ** What the viewer's methods leave alone *)

Lemma same_core_refl : forall v, same_core v v.
Proof. intro v. repeat split. Qed.

Lemma same_core_trans :
  forall a b c, same_core a b -> same_core b c -> same_core a c.
Proof.
  intros a b c (H1 & H2 & H3 & H4) (K1 & K2 & K3 & K4).
  repeat split; congruence.
Qed.

Lemma update_rubber_band_core :
  forall v, same_core v (PdfViewerWidget._update_rubber_band_from_pdf v).
Proof.
  intro v. unfold PdfViewerWidget._update_rubber_band_from_pdf.
  split_cases; repeat split.
Qed.

Lemma resize_core :
  forall v a b, same_core v (PdfViewerWidget.resize v a b).
Proof.
  intros v a b. unfold PdfViewerWidget.resize, PdfViewerWidget.resizeEvent.
  eapply same_core_trans; [|apply update_rubber_band_core].
  repeat split.
Qed.

Lemma update_widget_size_core :
  forall v, same_core v (PdfViewerWidget._update_widget_size v).
Proof.
  intro v. unfold PdfViewerWidget._update_widget_size.
  destruct (PdfViewerWidget.pixmap v) eqn:E; [|apply same_core_refl].
  eapply same_core_trans; [|apply resize_core].
  repeat split.
Qed.

Lemma set_viewport_size_core :
  forall v sz, same_core v (PdfViewerWidget.set_viewport_size v sz).
Proof.
  intros v sz. unfold PdfViewerWidget.set_viewport_size.
  eapply same_core_trans; [|apply update_rubber_band_core].
  eapply same_core_trans; [|apply update_widget_size_core].
  repeat split.
Qed.

Lemma mousePressEvent_core :
  forall v e, same_core v (PdfViewerWidget.mousePressEvent v e).
Proof.
  intros v e. unfold PdfViewerWidget.mousePressEvent.
  split_cases; repeat split.
Qed.

Lemma mouseMoveEvent_core :
  forall v e, same_core v (PdfViewerWidget.mouseMoveEvent v e).
Proof.
  intros v e. unfold PdfViewerWidget.mouseMoveEvent.
  split_cases; repeat split.
Qed.

(** [set_page]: the page rectangle and the scale are the new ones, a
    pixmap is there, and the selection is kept or dropped as asked. *)
Lemma set_page_core :
  forall v page scale keep,
    let v' := PdfViewerWidget.set_page v page scale keep in
    PdfViewerWidget.page_rect v' = Some (rect page) /\
    PdfViewerWidget.scale_factor v' = scale /\
    PdfViewerWidget.pixmap v' =
      Some (PdfViewerWidget._render_page_pixmap page scale) /\
    PdfViewerWidget._pdf_selection v' =
      (if keep then PdfViewerWidget._pdf_selection v else None).
Proof.
  intros v page scale keep. unfold PdfViewerWidget.set_page.
  set (v1 := PdfViewerWidget.set_pixmap _ _).
  assert (Q1 : PdfViewerWidget.pixmap v1 =
               Some (PdfViewerWidget._render_page_pixmap page scale)) by reflexivity.
  assert (Q2 : PdfViewerWidget.page_rect v1 = Some (rect page)) by reflexivity.
  assert (Q3 : PdfViewerWidget.scale_factor v1 = scale) by reflexivity.
  assert (Q4 : PdfViewerWidget._pdf_selection v1 = PdfViewerWidget._pdf_selection v)
    by reflexivity.
  clearbody v1.
  destruct (update_widget_size_core v1) as (P1 & P2 & P3 & P4).
  set (v2 := PdfViewerWidget._update_widget_size v1) in *. clearbody v2.
  cbv zeta.
  match goal with
  | |- context [PdfViewerWidget._update_rubber_band_from_pdf ?x] =>
      destruct (update_rubber_band_core x) as (R1 & R2 & R3 & R4)
  end.
  rewrite R1, R2, R3, R4.
  destruct keep; cbn [negb]; cbn; repeat split; congruence.
Qed.

(** ** Loading a page *)

Lemma fitz_load_page_in_range :
  forall (d : Document) (i : Z),
    (0 <= i < page_count d)%Z ->
    exists p, Fitz.load_page d i = Ok p /\ nth_error d (Z.to_nat i) = Some p.
Proof.
  intros d i Hi. unfold Fitz.load_page.
  destruct (page_count d =? 0)%Z eqn:E0; [apply Z.eqb_eq in E0; lia|].
  destruct (i <? 0)%Z eqn:E1; [apply Z.ltb_lt in E1; lia|].
  destruct (nth_error d (Z.to_nat i)) as [p|] eqn:E2; [eauto|].
  apply nth_error_None in E2. unfold page_count in Hi. lia.
Qed.

Lemma load_page_in_range :
  forall (m : MainWindow.t) (d : Document) (keep : bool),
    MainWindow.doc m = Some d -> d <> [] ->
    (0 <= MainWindow.current_page_index m < page_count d)%Z ->
    exists p,
      nth_error d (Z.to_nat (MainWindow.current_page_index m)) = Some p /\
      MainWindow.load_page m keep =
        (if keep then Ok (page_shown m d p true)
         else MainWindow.clear_selection (page_shown m d p false)).
Proof.
  intros m d keep Hd Hne Hi. unfold MainWindow.load_page. rewrite Hd.
  destruct d as [|p0 d0]; [congruence|]. cbn [doc_truthy negb].
  destruct (fitz_load_page_in_range (p0 :: d0) _ Hi) as (p & Hp & Hn).
  exists p. split; [exact Hn|]. rewrite Hp. cbn [bind].
  destruct keep; reflexivity.
Qed.

Lemma in_range_nonempty :
  forall (d : Document) (i : Z), (0 <= i < page_count d)%Z -> d <> [].
Proof.
  intros d i Hi ->. cbn in Hi. lia.
Qed.

(** [load_page(keep_selection=True)]: it returns, and the selection, the
    document, the page number, the scale and the emissions are as before;
    with a document the viewer then shows the page at the window's scale. *)
Lemma load_page_keep :
  forall m : MainWindow.t,
    index_in_range m ->
    exists m',
      MainWindow.load_page m true = Ok m' /\
      MainWindow.doc m' = MainWindow.doc m /\
      MainWindow.current_page_index m' = MainWindow.current_page_index m /\
      MainWindow.scale_factor m' = MainWindow.scale_factor m /\
      MainWindow.emitted m' = MainWindow.emitted m /\
      PdfViewerWidget._pdf_selection (MainWindow.viewer m') =
        PdfViewerWidget._pdf_selection (MainWindow.viewer m) /\
      match MainWindow.doc m with
      | Some d =>
          exists p,
            nth_error d (Z.to_nat (MainWindow.current_page_index m)) = Some p /\
            PdfViewerWidget.page_rect (MainWindow.viewer m') = Some (rect p) /\
            PdfViewerWidget.scale_factor (MainWindow.viewer m') =
              MainWindow.scale_factor m
      | None => MainWindow.viewer m' = MainWindow.viewer m
      end.
Proof.
  intros m Hi. unfold index_in_range in Hi.
  destruct (MainWindow.doc m) as [d|] eqn:Hd.
  - destruct (load_page_in_range m d true Hd (in_range_nonempty _ _ Hi) Hi)
      as (p & Hn & Hl).
    eexists. split; [exact Hl|].
    destruct (set_page_core (MainWindow.viewer m) p (MainWindow.scale_factor m) true)
      as (S1 & S2 & S3 & S4).
    cbn. repeat split; try assumption.
    exists p. repeat split; assumption.
  - exists m. unfold MainWindow.load_page. rewrite Hd. repeat split.
Qed.

Lemma viewer_clear_selection_core :
  forall v : PdfViewerWidget.t,
    let v' := fst (PdfViewerWidget.clear_selection v) in
    PdfViewerWidget.pixmap v' = PdfViewerWidget.pixmap v /\
    PdfViewerWidget.page_rect v' = PdfViewerWidget.page_rect v /\
    PdfViewerWidget.scale_factor v' = PdfViewerWidget.scale_factor v /\
    PdfViewerWidget._pdf_selection v' = None.
Proof.
  intro v. repeat split.
Qed.

Lemma page_shown_fields :
  forall m d p keep,
    MainWindow.viewer (page_shown m d p keep) =
      PdfViewerWidget.set_page (MainWindow.viewer m) p (MainWindow.scale_factor m) keep /\
    MainWindow.doc (page_shown m d p keep) = MainWindow.doc m /\
    MainWindow.current_page_index (page_shown m d p keep) =
      MainWindow.current_page_index m /\
    MainWindow.scale_factor (page_shown m d p keep) = MainWindow.scale_factor m /\
    MainWindow.emitted (page_shown m d p keep) = MainWindow.emitted m.
Proof.
  intros. repeat split.
Qed.

(** [load_page(keep_selection=False)] with a document: it returns, the
    selection is dropped and one [None] is emitted. *)
Lemma load_page_drop :
  forall (m : MainWindow.t) (d : Document),
    MainWindow.doc m = Some d ->
    (0 <= MainWindow.current_page_index m < page_count d)%Z ->
    exists m' p,
      MainWindow.load_page m false = Ok m' /\
      nth_error d (Z.to_nat (MainWindow.current_page_index m)) = Some p /\
      MainWindow.doc m' = MainWindow.doc m /\
      MainWindow.current_page_index m' = MainWindow.current_page_index m /\
      MainWindow.scale_factor m' = MainWindow.scale_factor m /\
      MainWindow.emitted m' = (MainWindow.emitted m ++ [None])%list /\
      PdfViewerWidget._pdf_selection (MainWindow.viewer m') = None /\
      PdfViewerWidget.page_rect (MainWindow.viewer m') = Some (rect p) /\
      PdfViewerWidget.scale_factor (MainWindow.viewer m') =
        MainWindow.scale_factor m.
Proof.
  intros m d Hd Hi.
  assert (Hne : d <> []) by exact (in_range_nonempty _ _ Hi).
  destruct (load_page_in_range m d false Hd Hne Hi) as (p & Hn & Hl).
  destruct (page_shown_fields m d p false) as (F1 & F2 & F3 & F4 & F5).
  destruct (set_page_core (MainWindow.viewer m) p (MainWindow.scale_factor m) false)
    as (S1 & S2 & S3 & S4).
  cbv zeta in S1, S2, S3, S4.
  set (m1 := page_shown m d p false) in *. clearbody m1.
  assert (Hd' : MainWindow.doc m1 <> Some []).
  { rewrite F2, Hd. congruence. }
  destruct (window_clear_selection_ok _ Hd')
    as (m' & Hc & Hv & He & Hdoc & Hidx & Hs & _).
  destruct (viewer_clear_selection_core (MainWindow.viewer m1)) as (C1 & C2 & C3 & C4).
  cbv zeta in C1, C2, C3, C4. rewrite <- Hv in C1, C2, C3, C4.
  exists m', p. rewrite Hl.
  repeat split; try assumption; congruence.
Qed.

(** ** Zoom *)

(** What a zoom to scale [s] does when the document has pages. *)
Lemma zoom_to_scale :
  forall (m : MainWindow.t) (s : Q),
    index_in_range m ->
    exists m',
      MainWindow.load_page (MainWindow.set_scale_factor m s) true = Ok m' /\
      MainWindow.doc m' = MainWindow.doc m /\
      MainWindow.current_page_index m' = MainWindow.current_page_index m /\
      MainWindow.scale_factor m' = s /\
      MainWindow.emitted m' = MainWindow.emitted m /\
      PdfViewerWidget._pdf_selection (MainWindow.viewer m') =
        PdfViewerWidget._pdf_selection (MainWindow.viewer m) /\
      match MainWindow.doc m with
      | Some d =>
          exists p,
            nth_error d (Z.to_nat (MainWindow.current_page_index m)) = Some p /\
            PdfViewerWidget.page_rect (MainWindow.viewer m') = Some (rect p) /\
            PdfViewerWidget.scale_factor (MainWindow.viewer m') = s
      | None => MainWindow.viewer m' = MainWindow.viewer m
      end.
Proof.
  intros m s Hi.
  exact (load_page_keep (MainWindow.set_scale_factor m s) Hi).
Qed.

(** C4.  In a state with a stored selection [r] and a page number within
    the document, each of [zoom_in], [zoom_out] and [reset_zoom] returns
    and the stored selection is [r] afterwards. *)
Theorem zoom_keeps_selection :
  forall (m : MainWindow.t) (r : Rect),
    PdfViewerWidget._pdf_selection (MainWindow.viewer m) = Some r ->
    index_in_range m ->
    (exists m', MainWindow.zoom_in m = Ok m' /\
                PdfViewerWidget._pdf_selection (MainWindow.viewer m') = Some r) /\
    (exists m', MainWindow.zoom_out m = Ok m' /\
                PdfViewerWidget._pdf_selection (MainWindow.viewer m') = Some r) /\
    (exists m', MainWindow.reset_zoom m = Ok m' /\
                PdfViewerWidget._pdf_selection (MainWindow.viewer m') = Some r).
Proof.
  intros m r Hsel Hi.
  unfold MainWindow.zoom_in, MainWindow.zoom_out, MainWindow.reset_zoom.
  destruct (MainWindow.has_pages m); cbn [negb].
  - repeat split.
    + destruct (zoom_to_scale m (Qmin (MainWindow.scale_factor m * (5 # 4)) 6) Hi)
        as (m' & H & _ & _ & _ & _ & Hs & _).
      exists m'. split; [exact H | congruence].
    + destruct (zoom_to_scale m (Qmax (MainWindow.scale_factor m / (5 # 4)) (1 # 5)) Hi)
        as (m' & H & _ & _ & _ & _ & Hs & _).
      exists m'. split; [exact H | congruence].
    + destruct (zoom_to_scale m 1 Hi) as (m' & H & _ & _ & _ & _ & Hs & _).
      exists m'. split; [exact H | congruence].
  - repeat split; exists m; split; auto.
Qed.

(** The example of the spec: the selection (10, 10, 50, 50) on a page of
    200 by 200 at scale 1. *)
Lemma zoom_keeps_selection_witness :
  let m := Samples.committed_one_page in
  let r := mkRect (20 # 2) (20 # 2) (100 # 2) (100 # 2) in
  (exists m', MainWindow.zoom_in m = Ok m' /\
              PdfViewerWidget._pdf_selection (MainWindow.viewer m') = Some r) /\
  (exists m', MainWindow.zoom_out m = Ok m' /\
              PdfViewerWidget._pdf_selection (MainWindow.viewer m') = Some r) /\
  (exists m', MainWindow.reset_zoom m = Ok m' /\
              PdfViewerWidget._pdf_selection (MainWindow.viewer m') = Some r).
Proof.
  apply zoom_keeps_selection.
  - reflexivity.
  - change (0 <= 0 < 1)%Z. lia.
Defined.

Lemma zoom_in_scale_bounds :
  forall s, scale_in_bounds s -> scale_in_bounds (Qmin (s * (5 # 4)) 6).
Proof.
  intros s [Hlo Hhi]. split.
  - apply Q.min_glb; lra.
  - apply Q.le_min_r.
Qed.

Lemma zoom_out_scale_bounds :
  forall s, scale_in_bounds s -> scale_in_bounds (Qmax (s / (5 # 4)) (1 # 5)).
Proof.
  intros s [Hlo Hhi]. unfold Qdiv. change (/ (5 # 4)) with (4 # 5). split.
  - apply Q.le_max_r.
  - apply Q.max_lub; lra.
Qed.

Lemma one_scale_bounds : scale_in_bounds 1.
Proof. split; lra. Qed.

(** A zoom command returns and keeps the page number in range and the
    scale in bounds. *)
Lemma zoom_step_bounds :
  forall (m : MainWindow.t) (c : MainWindow.command),
    is_zoom c -> index_in_range m ->
    scale_in_bounds (MainWindow.scale_factor m) ->
    exists m',
      MainWindow.step m c = Ok m' /\ index_in_range m' /\
      scale_in_bounds (MainWindow.scale_factor m').
Proof.
  intros m c Hz Hi Hs.
  assert (Hgen : forall s, scale_in_bounds s ->
            exists m', MainWindow.load_page (MainWindow.set_scale_factor m s) true = Ok m' /\
                       index_in_range m' /\ scale_in_bounds (MainWindow.scale_factor m')).
  { intros s Hb. destruct (zoom_to_scale m s Hi) as (m' & H & Hd & Hx & Hsc & _).
    exists m'. split; [exact H|]. split.
    - unfold index_in_range in *. rewrite Hd, Hx. exact Hi.
    - rewrite Hsc. exact Hb. }
  destruct c; try contradiction; cbn [MainWindow.step];
    unfold MainWindow.zoom_in, MainWindow.zoom_out, MainWindow.reset_zoom;
    (destruct (MainWindow.has_pages m); cbn [negb]; [|exists m; auto]);
    apply Hgen.
  - apply zoom_in_scale_bounds, Hs.
  - apply zoom_out_scale_bounds, Hs.
  - apply one_scale_bounds.
Qed.

Lemma zoom_run_bounds :
  forall (cs : list MainWindow.command) (m : MainWindow.t),
    Forall is_zoom cs -> index_in_range m ->
    scale_in_bounds (MainWindow.scale_factor m) ->
    exists m',
      MainWindow.run m cs = Ok m' /\ index_in_range m' /\
      scale_in_bounds (MainWindow.scale_factor m').
Proof.
  induction cs as [|c cs IH]; intros m Hz Hi Hs.
  - exists m. auto.
  - inversion Hz as [|? ? Hc Hcs]; subst.
    destruct (zoom_step_bounds m c Hc Hi Hs) as (m1 & H1 & Hi1 & Hs1).
    destruct (IH m1 Hcs Hi1 Hs1) as (m' & H' & Hi' & Hs').
    exists m'. cbn [MainWindow.run]. rewrite H1. cbn [bind]. auto.
Qed.

(** C6.  From a state whose scale is 1 (and whose page number is within
    the document), every sequence of [zoom_in], [zoom_out] and
    [reset_zoom] returns and leaves the scale within [0.2, 6.0]; and with
    a document that has pages [zoom_in] sets the scale to
    [min(scale * 1.25, 6.0)], [zoom_out] to [max(scale / 1.25, 0.2)] and
    [reset_zoom] to 1.0. *)
Theorem zoom_scale_bounds :
  (forall (m : MainWindow.t) (cs : list MainWindow.command),
      index_in_range m -> MainWindow.scale_factor m == 1 -> Forall is_zoom cs ->
      exists m',
        MainWindow.run m cs = Ok m' /\
        (1 # 5) <= MainWindow.scale_factor m' /\ MainWindow.scale_factor m' <= 6) /\
  (forall m : MainWindow.t,
      index_in_range m -> MainWindow.has_pages m = true ->
      (exists m', MainWindow.zoom_in m = Ok m' /\
                  MainWindow.scale_factor m' =
                    Qmin (MainWindow.scale_factor m * (5 # 4)) 6) /\
      (exists m', MainWindow.zoom_out m = Ok m' /\
                  MainWindow.scale_factor m' =
                    Qmax (MainWindow.scale_factor m / (5 # 4)) (1 # 5)) /\
      (exists m', MainWindow.reset_zoom m = Ok m' /\
                  MainWindow.scale_factor m' = 1)).
Proof.
  split.
  - intros m cs Hi H1 Hz.
    assert (Hs : scale_in_bounds (MainWindow.scale_factor m)).
    { split; rewrite H1; lra. }
    destruct (zoom_run_bounds cs m Hz Hi Hs) as (m' & H & _ & Hlo & Hhi).
    exists m'. auto.
  - intros m Hi Hp.
    unfold MainWindow.zoom_in, MainWindow.zoom_out, MainWindow.reset_zoom.
    rewrite Hp. cbn [negb].
    repeat split.
    + destruct (zoom_to_scale m (Qmin (MainWindow.scale_factor m * (5 # 4)) 6) Hi)
        as (m' & H & _ & _ & Hs & _).
      exists m'. auto.
    + destruct (zoom_to_scale m (Qmax (MainWindow.scale_factor m / (5 # 4)) (1 # 5)) Hi)
        as (m' & H & _ & _ & Hs & _).
      exists m'. auto.
    + destruct (zoom_to_scale m 1 Hi) as (m' & H & _ & _ & Hs & _).
      exists m'. auto.
Qed.

(** Nine times [zoom_in], then eighteen times [zoom_out], from a freshly
    opened document. *)
Lemma zoom_scale_bounds_witness :
  let m := Samples.state_of
             (MainWindow.open_pdf MainWindow.init "/home/user/a.pdf"
                (Opened Samples.one_page)) in
  let cs := (repeat MainWindow.ZoomIn 9 ++ repeat MainWindow.ZoomOut 18)%list in
  (exists m',
      MainWindow.run m cs = Ok m' /\
      (1 # 5) <= MainWindow.scale_factor m' /\ MainWindow.scale_factor m' <= 6) /\
  (exists m', MainWindow.zoom_in m = Ok m' /\
              MainWindow.scale_factor m' =
                Qmin (MainWindow.scale_factor m * (5 # 4)) 6) /\
  (exists m', MainWindow.zoom_out m = Ok m' /\
              MainWindow.scale_factor m' =
                Qmax (MainWindow.scale_factor m / (5 # 4)) (1 # 5)) /\
  (exists m', MainWindow.reset_zoom m = Ok m' /\
              MainWindow.scale_factor m' = 1).
Proof.
  split.
  - apply (proj1 zoom_scale_bounds).
    + change (0 <= 0 < 1)%Z. lia.
    + reflexivity.
    + cbn [repeat app]. repeat constructor.
  - apply (proj2 zoom_scale_bounds).
    + change (0 <= 0 < 1)%Z. lia.
    + reflexivity.
Defined.

(** Repeated [zoom_in] stops at 6 and repeated [zoom_out] at 0.2. *)
Example zoom_reaches_the_bounds :
  let m := Samples.state_of
             (MainWindow.open_pdf MainWindow.init "/home/user/a.pdf"
                (Opened Samples.one_page)) in
  MainWindow.scale_factor
    (Samples.state_of (MainWindow.run m (repeat MainWindow.ZoomIn 9))) == 6 /\
  MainWindow.scale_factor
    (Samples.state_of (MainWindow.run m (repeat MainWindow.ZoomOut 8))) == 1 # 5.
Proof.
  split; vm_compute; reflexivity.
Qed.

(** ** Page navigation *)

(** C5, as the code has it.  With a document and a page number within it:
    when a next page exists, [next_page] returns, moves to it, leaves the
    selection absent and emits [selection_changed] once, with [None]; and
    likewise [prev_page] when a previous page exists. *)
Theorem page_change_clears_selection :
  forall (m : MainWindow.t) (d : Document),
    MainWindow.doc m = Some d ->
    (0 <= MainWindow.current_page_index m < page_count d)%Z ->
    ((MainWindow.current_page_index m < page_count d - 1)%Z ->
     exists m',
       MainWindow.next_page m = Ok m' /\
       MainWindow.current_page_index m' = (MainWindow.current_page_index m + 1)%Z /\
       PdfViewerWidget._pdf_selection (MainWindow.viewer m') = None /\
       MainWindow.emitted m' = (MainWindow.emitted m ++ [None])%list) /\
    ((0 < MainWindow.current_page_index m)%Z ->
     exists m',
       MainWindow.prev_page m = Ok m' /\
       MainWindow.current_page_index m' = (MainWindow.current_page_index m - 1)%Z /\
       PdfViewerWidget._pdf_selection (MainWindow.viewer m') = None /\
       MainWindow.emitted m' = (MainWindow.emitted m ++ [None])%list).
Proof.
  intros m d Hd Hi.
  assert (Hne : d <> []) by exact (in_range_nonempty _ _ Hi).
  assert (Ht : doc_truthy d = true) by (destruct d; [congruence | reflexivity]).
  assert (Hmove : forall i, (0 <= i < page_count d)%Z ->
            exists m',
              (m1 <- MainWindow.load_page (MainWindow.set_current_page_index m i) false ;;
               MainWindow._update_controls m1) = Ok m' /\
              MainWindow.current_page_index m' = i /\
              PdfViewerWidget._pdf_selection (MainWindow.viewer m') = None /\
              MainWindow.emitted m' = (MainWindow.emitted m ++ [None])%list).
  { intros i Hr.
    destruct (load_page_drop (MainWindow.set_current_page_index m i) d Hd Hr)
      as (m1 & p & Hl & _ & Hdoc & Hidx & _ & Hem & Hsel & _).
    assert (Hd1 : MainWindow.doc m1 <> Some []).
    { rewrite Hdoc. cbn. rewrite Hd. congruence. }
    destruct (update_controls_ok m1 Hd1) as (b & Hb).
    rewrite Hl. cbn [bind]. rewrite Hb.
    eexists. split; [reflexivity|]. cbn. auto. }
  split.
  - intro Hnext. unfold MainWindow.next_page. rewrite Hd, Ht.
    apply Z.ltb_lt in Hnext. rewrite Hnext. cbn [andb].
    apply Hmove. apply Z.ltb_lt in Hnext. lia.
  - intro Hprev. unfold MainWindow.prev_page, MainWindow.has_pages.
    rewrite Hd, Ht. apply Z.ltb_lt in Hprev. rewrite Hprev. cbn [andb].
    apply Hmove. apply Z.ltb_lt in Hprev. lia.
Qed.

(** On the first of two pages with a selection [next_page] clears it; and
    on the second page, with a selection dragged there, [prev_page] does. *)
Lemma page_change_clears_selection_witness :
  (let m := Samples.committed_two_pages in
   PdfViewerWidget._pdf_selection (MainWindow.viewer m)
     = Some (mkRect (20 # 2) (20 # 2) (100 # 2) (100 # 2)) /\
   exists m',
     MainWindow.next_page m = Ok m' /\
     MainWindow.current_page_index m' = (MainWindow.current_page_index m + 1)%Z /\
     PdfViewerWidget._pdf_selection (MainWindow.viewer m') = None /\
     MainWindow.emitted m' = (MainWindow.emitted m ++ [None])%list) /\
  (let m := Samples.committed_second_page in
   PdfViewerWidget._pdf_selection (MainWindow.viewer m)
     = Some (mkRect (20 # 2) (20 # 2) (100 # 2) 50) /\
   exists m',
     MainWindow.prev_page m = Ok m' /\
     MainWindow.current_page_index m' = (MainWindow.current_page_index m - 1)%Z /\
     PdfViewerWidget._pdf_selection (MainWindow.viewer m') = None /\
     MainWindow.emitted m' = (MainWindow.emitted m ++ [None])%list).
Proof.
  split.
  - split; [reflexivity|].
    apply (proj1 (page_change_clears_selection Samples.committed_two_pages
                    Samples.two_pages eq_refl
                    (conj (Z.le_refl 0) (eq_refl : (0 ?= 2)%Z = Lt)))).
    reflexivity.
  - split; [reflexivity|].
    apply (proj2 (page_change_clears_selection Samples.committed_second_page
                    Samples.two_pages eq_refl
                    (conj (Z.lt_le_incl 0 1 eq_refl) (eq_refl : (1 ?= 2)%Z = Lt)))).
    reflexivity.
Defined.

(** At the last page [next_page] does nothing, and at the first page
    [prev_page] does nothing. *)
Lemma page_change_at_the_boundary :
  forall (m : MainWindow.t) (d : Document),
    MainWindow.doc m = Some d ->
    ((page_count d - 1 <= MainWindow.current_page_index m)%Z ->
     MainWindow.next_page m = Ok m) /\
    ((MainWindow.current_page_index m <= 0)%Z -> MainWindow.prev_page m = Ok m).
Proof.
  intros m d Hd. split; intro H.
  - unfold MainWindow.next_page. rewrite Hd.
    apply Z.ltb_ge in H. rewrite H. now rewrite andb_false_r.
  - unfold MainWindow.prev_page.
    apply Z.ltb_ge in H. rewrite H. now rewrite andb_false_r.
Qed.

(** C5 as stated fails: on the last page (here the only one) a selection
    is stored, and [next_page] and [prev_page] return the state as it is:
    the selection is still there and nothing was emitted. *)
Lemma next_page_on_last_page_keeps_selection :
  let m := Samples.committed_one_page in
  PdfViewerWidget._pdf_selection (MainWindow.viewer m)
    = Some (mkRect (20 # 2) (20 # 2) (100 # 2) (100 # 2)) /\
  MainWindow.next_page m = Ok m /\
  MainWindow.prev_page m = Ok m /\
  ~ (exists m',
        MainWindow.next_page m = Ok m' /\
        PdfViewerWidget._pdf_selection (MainWindow.viewer m') = None /\
        MainWindow.emitted m' = (MainWindow.emitted m ++ [None])%list).
Proof.
  repeat split; try reflexivity.
  intros (m' & H & Hsel & _).
  assert (G : forall (m0 m1 : MainWindow.t) (r : Rect),
             Ok m0 = Ok m1 ->
             PdfViewerWidget._pdf_selection (MainWindow.viewer m0) = Some r ->
             PdfViewerWidget._pdf_selection (MainWindow.viewer m1) = None -> False).
  { intros m0 m1 r E S N. injection E as <-. congruence. }
  assert (E : MainWindow.next_page Samples.committed_one_page
              = Ok Samples.committed_one_page) by reflexivity.
  rewrite E in H.
  apply (G Samples.committed_one_page m'
           (mkRect (20 # 2) (20 # 2) (100 # 2) (100 # 2)) H);
    [reflexivity | exact Hsel].
Qed.

(** ** The two conversions *)

Lemma rect_eq_trans : forall a b c, rect_eq a b -> rect_eq b c -> rect_eq a c.
Proof.
  intros a b c (A0 & A1 & A2 & A3) (B0 & B1 & B2 & B3).
  repeat split; etransitivity; eassumption.
Qed.

Lemma width_compat : forall a b, rect_eq a b -> width a == width b.
Proof.
  intros a b (E0 & _ & E2 & _). unfold width. rewrite E0, E2. reflexivity.
Qed.

Lemma height_compat : forall a b, rect_eq a b -> height a == height b.
Proof.
  intros a b (_ & E1 & _ & E3). unfold height. rewrite E1, E3. reflexivity.
Qed.

Lemma clamp_normalize_compat :
  forall pg a b, rect_eq a b ->
    rect_eq (clamp pg (normalize a)) (clamp pg (normalize b)).
Proof.
  intros pg a b (E0 & E1 & E2 & E3). unfold clamp, normalize, rect_eq. cbn.
  rewrite E0, E1, E2, E3. repeat split; reflexivity.
Qed.

(** Clamping a normalized rectangle that is within the bounds changes
    nothing. *)
Lemma clamp_normalize_inside :
  forall pg r, rect_normalized r -> rect_inside pg r ->
    rect_eq (clamp pg (normalize r)) r.
Proof.
  intros pg r (N0 & N1) (I0 & I1 & I2 & I3). unfold clamp, normalize, rect_eq. cbn.
  repeat split; minmax.
Qed.

(** Against a page rectangle that is falsy (all zeros) every clamped
    rectangle has width 0. *)
Lemma clamp_falsy_page :
  forall pg r, truthy pg = false -> width (clamp pg r) == 0.
Proof.
  intros pg r H. unfold truthy in H. apply negb_false_iff in H.
  repeat (apply andb_true_iff in H; destruct H as [H ?]).
  repeat match goal with
         | E : Qeq_bool _ _ = true |- _ => apply Qeq_bool_eq in E
         end.
  unfold width, clamp. cbn. minmax.
Qed.

Lemma nonzero_width_truthy :
  forall r, ~ width r == 0 -> truthy r = true.
Proof.
  intros r Hw. unfold truthy. apply negb_true_iff.
  destruct (Qeq_bool (x0 r) 0) eqn:E0; [|reflexivity].
  destruct (Qeq_bool (y0 r) 0); [|reflexivity].
  destruct (Qeq_bool (x1 r) 0) eqn:E1; [|reflexivity].
  exfalso. apply Hw. apply Qeq_bool_eq in E0, E1.
  unfold width. rewrite E0, E1. reflexivity.
Qed.

(** [_widget_rect_to_pdf] with a page rectangle and a scale that is not
    zero: no exception, and the result is decided by the clamped
    rectangle. *)
Lemma widget_rect_to_pdf_with_page :
  forall (v : PdfViewerWidget.t) (pg : Rect) (s : QRectF),
    PdfViewerWidget.page_rect v = Some pg ->
    ~ PdfViewerWidget.scale_factor v == 0 ->
    PdfViewerWidget._widget_rect_to_pdf v s =
      if negb (truthy pg) then Ok None
      else
        let c := clamp pg (normalize (corners v s)) in
        if Qeq_bool (width c) 0 || Qeq_bool (height c) 0 then Ok None
        else Ok (Some c).
Proof.
  intros v pg s Hpage Hs.
  unfold PdfViewerWidget._widget_rect_to_pdf, corners. rewrite Hpage.
  destruct (negb (truthy pg)); [reflexivity|].
  destruct (PdfViewerWidget.image_offsets v) as [ox oy].
  unfold pydiv.
  destruct (Qeq_bool (PdfViewerWidget.scale_factor v) 0) eqn:E.
  - apply Qeq_bool_eq in E. contradiction.
  - reflexivity.
Qed.

(** The corners the code computes are those of the spec's first step. *)
Lemma corners_candidate :
  forall (v : PdfViewerWidget.t) (s : QRectF),
    ~ PdfViewerWidget.scale_factor v == 0 ->
    rect_eq (corners v s)
      (candidate (PdfViewerWidget.scale_factor v)
         (fst (PdfViewerWidget.image_offsets v))
         (snd (PdfViewerWidget.image_offsets v)) s).
Proof.
  intros v s Hs. unfold corners, candidate, right, bottom, left, top, rect_eq.
  destruct (PdfViewerWidget.image_offsets v) as [ox oy]. cbn.
  repeat split; try reflexivity; field; exact Hs.
Qed.

(** Going to widget space and taking the corners back gives the
    rectangle again. *)
Lemma corners_of_widget_rect :
  forall (v : PdfViewerWidget.t) (r : Rect),
    0 < PdfViewerWidget.scale_factor v -> rect_normalized r ->
    rect_eq (corners v (PdfViewerWidget._pdf_rect_to_widget v r)) r.
Proof.
  intros v r Hs (N0 & N1).
  unfold corners, PdfViewerWidget._pdf_rect_to_widget.
  destruct (PdfViewerWidget.image_offsets v) as [ox oy].
  set (sc := PdfViewerWidget.scale_factor v) in *.
  unfold QRectF_normalized, QRectF_of_points. cbn.
  destruct (Qlt_le_dec _ 0) as [Hx|Hx]; [exfalso; nra|].
  destruct (Qlt_le_dec _ 0) as [Hy|Hy]; [exfalso; nra|].
  unfold rect_eq, left, top. cbn.
  repeat split; field; lra.
Qed.

(** C1.  With a page rectangle [pg], a scale above 0 and whatever offsets
    the widget has: a rectangle [r] that is normalized, of positive width
    and height and within [pg], taken to widget space by
    [_pdf_rect_to_widget] and back by [_widget_rect_to_pdf], comes back as
    [r] (no exception, not [None], and equal coordinate by coordinate). *)
Theorem widget_pdf_round_trip :
  forall (v : PdfViewerWidget.t) (pg r : Rect),
    PdfViewerWidget.page_rect v = Some pg ->
    0 < PdfViewerWidget.scale_factor v ->
    rect_normalized r -> 0 < width r -> 0 < height r -> rect_inside pg r ->
    exists r',
      PdfViewerWidget._widget_rect_to_pdf v (PdfViewerWidget._pdf_rect_to_widget v r)
        = Ok (Some r') /\
      rect_eq r' r.
Proof.
  intros v pg r Hpage Hs Hn Hw Hh Hin.
  rewrite (widget_rect_to_pdf_with_page v pg _ Hpage) by lra.
  assert (Hpg : truthy pg = true).
  { apply nonzero_width_truthy. destruct Hin as (I0 & I1 & _).
    unfold width in *. minmax. }
  rewrite Hpg. cbn [negb]. cbv zeta.
  set (c := clamp pg (normalize _)).
  assert (Hc : rect_eq c r).
  { eapply rect_eq_trans.
    - apply clamp_normalize_compat. apply corners_of_widget_rect; assumption.
    - apply clamp_normalize_inside; assumption. }
  assert (Ew : Qeq_bool (width c) 0 = false).
  { destruct (Qeq_bool (width c) 0) eqn:E; [|reflexivity].
    apply Qeq_bool_eq in E. rewrite (width_compat _ _ Hc) in E. lra. }
  assert (Eh : Qeq_bool (height c) 0 = false).
  { destruct (Qeq_bool (height c) 0) eqn:E; [|reflexivity].
    apply Qeq_bool_eq in E. rewrite (height_compat _ _ Hc) in E. lra. }
  rewrite Ew, Eh. cbn [orb]. exists c. split; [reflexivity | exact Hc].
Qed.

(** A page of 200 by 200 shown at scale 5/4 in a widget of 400 by 300 (so
    the offsets are 75 and 25) and the rectangle (10, 10, 50, 50). *)
Lemma widget_pdf_round_trip_witness :
  let v := PdfViewerWidget.resize
             (MainWindow.viewer
                (Samples.state_of (MainWindow.zoom_in Samples.committed_one_page)))
             400 300 in
  (fst (PdfViewerWidget.image_offsets v) == 75 /\
   snd (PdfViewerWidget.image_offsets v) == 25) /\
  exists r',
    PdfViewerWidget._widget_rect_to_pdf v
      (PdfViewerWidget._pdf_rect_to_widget v Samples.rect_10_50) = Ok (Some r') /\
    rect_eq r' Samples.rect_10_50.
Proof.
  split; [split; reflexivity|].
  apply (widget_pdf_round_trip _ (mkRect 0 0 200 200)).
  - reflexivity.
  - reflexivity.
  - split; discriminate.
  - reflexivity.
  - reflexivity.
  - repeat split; discriminate.
Defined.

(** ** When the conversion yields no rectangle *)

Lemma scaled_le : forall sc a b, 0 < sc -> a * sc <= b * sc -> a <= b.
Proof. intros. nra. Qed.

Lemma normalized_left :
  forall r, left (QRectF_normalized r)
            = if Qlt_le_dec (w r) 0 then xp r + w r else xp r.
Proof.
  intro r. unfold left, QRectF_normalized.
  destruct (Qlt_le_dec (w r) 0), (Qlt_le_dec (h r) 0); reflexivity.
Qed.

Lemma normalized_right :
  forall r, right (QRectF_normalized r)
            = (if Qlt_le_dec (w r) 0 then xp r + w r else xp r)
              + (if Qlt_le_dec (w r) 0 then - w r else w r).
Proof.
  intro r. unfold right, QRectF_normalized.
  destruct (Qlt_le_dec (w r) 0), (Qlt_le_dec (h r) 0); reflexivity.
Qed.

Lemma normalized_top :
  forall r, top (QRectF_normalized r)
            = if Qlt_le_dec (h r) 0 then yp r + h r else yp r.
Proof.
  intro r. unfold top, QRectF_normalized.
  destruct (Qlt_le_dec (w r) 0), (Qlt_le_dec (h r) 0); reflexivity.
Qed.

Lemma normalized_bottom :
  forall r, bottom (QRectF_normalized r)
            = (if Qlt_le_dec (h r) 0 then yp r + h r else yp r)
              + (if Qlt_le_dec (h r) 0 then - h r else h r).
Proof.
  intro r. unfold bottom, QRectF_normalized.
  destruct (Qlt_le_dec (w r) 0), (Qlt_le_dec (h r) 0); reflexivity.
Qed.

(** Two intervals of page space that do not overlap: the clamped extent
    is 0. *)
Lemma axis_disjoint :
  forall p0 p1 c0 c1 : Q,
    Qmax c0 c1 <= Qmin p0 p1 \/ Qmax p0 p1 <= Qmin c0 c1 ->
    Qmax 0 (Qmin p1 (Qmax c0 c1) - Qmax p0 (Qmin c0 c1)) == 0.
Proof. intros. minmax. Qed.

Lemma axis_inverted_page :
  forall p0 p1 c0 c1 : Q, p1 <= p0 ->
    Qmax 0 (Qmin p1 (Qmax c0 c1) - Qmax p0 (Qmin c0 c1)) == 0.
Proof. intros. minmax. Qed.

(** One axis: a widget interval [l, l + wd] that does not overlap the
    image of the page interval [p0, p1] clamps to extent 0. *)
Lemma axis_outside :
  forall sc o p0 p1 l wd : Q,
    0 < sc ->
    let c0 := (l - o) / sc in
    let c1 := c0 + wd / sc in
    let a := p0 * sc + o in
    let b := p1 * sc + o in
    let rl := if Qlt_le_dec (b - a) 0 then a + (b - a) else a in
    let rw := if Qlt_le_dec (b - a) 0 then - (b - a) else b - a in
    let sl := if Qlt_le_dec wd 0 then l + wd else l in
    let sw := if Qlt_le_dec wd 0 then - wd else wd in
    sl + sw <= rl \/ rl + rw <= sl ->
    Qmax 0 (Qmin p1 (Qmax c0 c1) - Qmax p0 (Qmin c0 c1)) == 0.
Proof.
  intros sc o p0 p1 l wd Hs c0 c1 a b rl rw sl sw H.
  assert (E0 : c0 * sc == l - o) by (unfold c0; field; lra).
  assert (E1 : c1 * sc == l + wd - o) by (unfold c1, c0; field; lra).
  clearbody c0 c1.
  subst rl rw sl sw a b.
  destruct (Qlt_le_dec (p1 * sc + o - (p0 * sc + o)) 0) as [Hp|Hp].
  - apply axis_inverted_page. apply (scaled_le sc); lra.
  - assert (P : p0 <= p1) by (apply (scaled_le sc); lra).
    apply axis_disjoint.
    destruct (Qlt_le_dec wd 0) as [Hw|Hw].
    + assert (C : c1 <= c0) by (apply (scaled_le sc); lra).
      destruct H as [H|H]; [left|right].
      * assert (c0 <= p0) by (apply (scaled_le sc); lra). minmax.
      * assert (p1 <= c1) by (apply (scaled_le sc); lra). minmax.
    + assert (C : c0 <= c1) by (apply (scaled_le sc); lra).
      destruct H as [H|H]; [left|right].
      * assert (c1 <= p0) by (apply (scaled_le sc); lra). minmax.
      * assert (p1 <= c0) by (apply (scaled_le sc); lra). minmax.
Qed.

(** A widget rectangle that does not meet the image of the page clamps to
    width 0 or height 0. *)
Lemma outside_clamps_to_nothing :
  forall (v : PdfViewerWidget.t) (pg : Rect) (s : QRectF),
    0 < PdfViewerWidget.scale_factor v ->
    fully_outside (PdfViewerWidget._pdf_rect_to_widget v pg) (QRectF_normalized s) ->
    width (clamp pg (normalize (corners v s))) == 0 \/
    height (clamp pg (normalize (corners v s))) == 0.
Proof.
  intros v pg s Hs. unfold fully_outside.
  unfold PdfViewerWidget._pdf_rect_to_widget, corners.
  destruct (PdfViewerWidget.image_offsets v) as [ox oy].
  rewrite !normalized_left, !normalized_right, !normalized_top, !normalized_bottom.
  unfold QRectF_of_points, width, height, clamp, normalize, left, top. cbn.
  intros [H|[H|[H|H]]].
  - left. apply (axis_outside _ ox (x0 pg) (x1 pg) (xp s) (w s) Hs). left. exact H.
  - left. apply (axis_outside _ ox (x0 pg) (x1 pg) (xp s) (w s) Hs). right. exact H.
  - right. apply (axis_outside _ oy (y0 pg) (y1 pg) (yp s) (h s) Hs). left. exact H.
  - right. apply (axis_outside _ oy (y0 pg) (y1 pg) (yp s) (h s) Hs). right. exact H.
Qed.

(** C3.  With a page rectangle and a scale above 0, [_widget_rect_to_pdf]
    returns (no exception); it returns [None] exactly when the candidate
    rectangle of the spec (offset undone, scale undone), normalized and
    clamped edge by edge to the page, has width 0 or height 0; and it
    returns [None] for every widget rectangle that does not meet the image
    of the page. *)
Theorem widget_rect_to_pdf_none_iff :
  forall (v : PdfViewerWidget.t) (pg : Rect) (s : QRectF),
    PdfViewerWidget.page_rect v = Some pg ->
    0 < PdfViewerWidget.scale_factor v ->
    let c := clamp pg
               (normalize
                  (candidate (PdfViewerWidget.scale_factor v)
                     (fst (PdfViewerWidget.image_offsets v))
                     (snd (PdfViewerWidget.image_offsets v)) s)) in
    (exists o, PdfViewerWidget._widget_rect_to_pdf v s = Ok o) /\
    (PdfViewerWidget._widget_rect_to_pdf v s = Ok None <->
     width c == 0 \/ height c == 0) /\
    (fully_outside (PdfViewerWidget._pdf_rect_to_widget v pg) (QRectF_normalized s) ->
     PdfViewerWidget._widget_rect_to_pdf v s = Ok None).
Proof.
  intros v pg s Hpage Hs c.
  assert (Hnz : ~ PdfViewerWidget.scale_factor v == 0) by lra.
  assert (Hc : rect_eq (clamp pg (normalize (corners v s))) c).
  { apply clamp_normalize_compat, corners_candidate, Hnz. }
  pose proof (width_compat _ _ Hc) as Ew.
  pose proof (height_compat _ _ Hc) as Eh.
  assert (Hiff : PdfViewerWidget._widget_rect_to_pdf v s = Ok None <->
                 width c == 0 \/ height c == 0).
  { rewrite (widget_rect_to_pdf_with_page v pg s Hpage Hnz).
    destruct (truthy pg) eqn:Ht; cbn [negb].
    - cbv zeta.
      destruct (Qeq_bool (width (clamp pg (normalize (corners v s)))) 0) eqn:E1;
        cbn [orb].
      + apply Qeq_bool_eq in E1. split; [intros _|reflexivity].
        left. rewrite <- Ew. exact E1.
      + destruct (Qeq_bool (height (clamp pg (normalize (corners v s)))) 0) eqn:E2.
        * apply Qeq_bool_eq in E2. split; [intros _|reflexivity].
          right. rewrite <- Eh. exact E2.
        * split; [discriminate|].
          apply Qeq_bool_neq in E1, E2. rewrite <- Ew, <- Eh. tauto.
    - split; [intros _|reflexivity].
      left. rewrite <- Ew. apply clamp_falsy_page, Ht. }
  split; [|split].
  - rewrite (widget_rect_to_pdf_with_page v pg s Hpage Hnz).
    destruct (negb (truthy pg)); [eauto|]. cbv zeta.
    destruct (_ || _); eauto.
  - exact Hiff.
  - intro Hout. apply Hiff. rewrite <- Ew, <- Eh.
    apply outside_clamps_to_nothing; assumption.
Qed.

(** The whole page of 200 by 200 at scale 1 without offsets, and a drag
    from (300, 300) of size 50 by 50, to the right of and below the
    page. *)
Lemma widget_rect_to_pdf_none_iff_witness :
  let v := MainWindow.viewer Samples.committed_one_page in
  let s := mkQRectF 300 300 50 50 in
  fully_outside (PdfViewerWidget._pdf_rect_to_widget v (mkRect 0 0 200 200))
    (QRectF_normalized s) /\
  PdfViewerWidget._widget_rect_to_pdf v s = Ok None.
Proof.
  intros v s.
  assert (Hout : fully_outside
                   (PdfViewerWidget._pdf_rect_to_widget v (mkRect 0 0 200 200))
                   (QRectF_normalized s)).
  { right. left. vm_compute. discriminate. }
  split; [exact Hout|].
  apply (proj2 (proj2 (widget_rect_to_pdf_none_iff v (mkRect 0 0 200 200) s
                         eq_refl eq_refl))).
  exact Hout.
Defined.

(** The examples of the spec for [screenToPage]: a page of 100 by 100 at
    scale 2 without offsets; the results are (10, 10, 40, 40),
    (0, 0, 15, 15) and none. *)
Example widget_rect_to_pdf_examples :
  let v := PdfViewerWidget.set_page PdfViewerWidget.init
             (mkPage (mkRect 0 0 100 100) (fun _ => mkPixmap 200 200)) 2 false in
  PdfViewerWidget.image_offsets v = (0 # 2, 0 # 2) /\
  PdfViewerWidget._widget_rect_to_pdf v (mkQRectF 20 20 60 60)
    = Ok (Some (mkRect (40 # 4) (40 # 4) (320 # 8) (320 # 8))) /\
  PdfViewerWidget._widget_rect_to_pdf v (mkQRectF (-10) (-10) 40 40)
    = Ok (Some (mkRect 0 0 (120 # 8) (120 # 8))) /\
  PdfViewerWidget._widget_rect_to_pdf v (mkQRectF 20 20 0 0) = Ok None.
Proof.
  vm_compute. repeat split.
Qed.

(** ** The invariant of the program *)

(** What a clamped rectangle of nonzero width and height satisfies. *)
Lemma clamped_selection :
  forall pg r,
    ~ width (clamp pg r) == 0 -> ~ height (clamp pg r) == 0 ->
    rect_normalized (clamp pg r) /\ rect_inside pg (clamp pg r).
Proof.
  intros pg r. unfold width, height, clamp, rect_normalized, rect_inside. cbn.
  intros Hw Hh.
  repeat split; minmax.
Qed.

(** With a scale that is not zero [_widget_rect_to_pdf] returns, and what
    it returns is fit to be stored. *)
Lemma widget_rect_to_pdf_result :
  forall (v : PdfViewerWidget.t) (s : QRectF),
    ~ PdfViewerWidget.scale_factor v == 0 ->
    exists o,
      PdfViewerWidget._widget_rect_to_pdf v s = Ok o /\
      match o with
      | None => True
      | Some c =>
          exists pg, PdfViewerWidget.page_rect v = Some pg /\
                     rect_normalized c /\ rect_inside pg c /\
                     ~ width c == 0 /\ ~ height c == 0
      end.
Proof.
  intros v s Hs.
  destruct (PdfViewerWidget.page_rect v) as [pg|] eqn:Hpage.
  - rewrite (widget_rect_to_pdf_with_page v pg s Hpage Hs).
    destruct (negb (truthy pg)); [exists None; auto|]. cbv zeta.
    set (c := clamp pg (normalize (corners v s))).
    destruct (Qeq_bool (width c) 0) eqn:E1; cbn [orb]; [exists None; auto|].
    destruct (Qeq_bool (height c) 0) eqn:E2; [exists None; auto|].
    apply Qeq_bool_neq in E1, E2.
    exists (Some c). split; [reflexivity|].
    exists pg. destruct (clamped_selection pg _ E1 E2) as [Hn Hi]. auto.
  - exists None. unfold PdfViewerWidget._widget_rect_to_pdf. rewrite Hpage. auto.
Qed.

(** The viewer after [mouseReleaseEvent]. *)
Lemma mouseReleaseEvent_result :
  forall (v : PdfViewerWidget.t) (e : QMouseEvent),
    ~ PdfViewerWidget.scale_factor v == 0 -> selection_ok v ->
    exists v' sigs,
      PdfViewerWidget.mouseReleaseEvent v e = Ok (v', sigs) /\
      PdfViewerWidget.page_rect v' = PdfViewerWidget.page_rect v /\
      PdfViewerWidget.scale_factor v' = PdfViewerWidget.scale_factor v /\
      selection_ok v'.
Proof.
  intros v e Hs Hsel. unfold PdfViewerWidget.mouseReleaseEvent.
  destruct (is_left (button e) && PdfViewerWidget._dragging v);
    [|exists v, []; auto].
  destruct (PdfViewerWidget.pixmap v) as [pm|]; [|exists v, []; auto].
  set (rect := QRectF_of_QRect _).
  set (v1 := PdfViewerWidget.set_selection_widget_rect _ _).
  assert (P1 : PdfViewerWidget.page_rect v1 = PdfViewerWidget.page_rect v)
    by reflexivity.
  assert (P2 : PdfViewerWidget.scale_factor v1 = PdfViewerWidget.scale_factor v)
    by reflexivity.
  clearbody v1 rect.
  destruct (widget_rect_to_pdf_result v1 rect) as (o & Ho & Hres);
    [rewrite P2; exact Hs|].
  rewrite Ho. cbn [bind].
  destruct (update_rubber_band_core (PdfViewerWidget.set_pdf_selection v1 o))
    as (_ & R2 & R3 & R4).
  set (v2 := PdfViewerWidget._update_rubber_band_from_pdf _) in *. clearbody v2.
  cbn in R2, R3, R4.
  exists v2, [PdfViewerWidget._pdf_selection v2].
  split; [reflexivity|]. split; [congruence|]. split; [congruence|].
  unfold selection_ok. rewrite R4, R2.
  destruct o as [c|]; [exact Hres | exact I].
Qed.

Lemma same_core_selection_ok :
  forall v v', same_core v v' -> selection_ok v -> selection_ok v'.
Proof.
  intros v v' (_ & H2 & _ & H4) H. unfold selection_ok in *.
  rewrite H4, H2. exact H.
Qed.

Lemma consistent_transfer :
  forall m m',
    same_document m m' ->
    PdfViewerWidget.page_rect (MainWindow.viewer m') =
      PdfViewerWidget.page_rect (MainWindow.viewer m) ->
    PdfViewerWidget.scale_factor (MainWindow.viewer m') =
      PdfViewerWidget.scale_factor (MainWindow.viewer m) ->
    selection_ok (MainWindow.viewer m') ->
    consistent m -> consistent m'.
Proof.
  intros m m' (Hd & Hi & Hs) Hp Hv Hsel [C1 C2 C3 C4].
  constructor.
  - unfold index_in_range in *. rewrite Hd, Hi. exact C1.
  - unfold viewer_in_step in *. rewrite Hd, Hi, Hs, Hp, Hv. exact C2.
  - rewrite Hs. exact C3.
  - exact Hsel.
Qed.

Lemma consistent_same_viewer :
  forall m m',
    same_document m m' -> MainWindow.viewer m' = MainWindow.viewer m ->
    consistent m -> consistent m'.
Proof.
  intros m m' Hd Hv C.
  apply (consistent_transfer m m' Hd);
    [rewrite Hv; reflexivity | rewrite Hv; reflexivity
    | rewrite Hv; apply C | exact C].
Qed.

Lemma consistent_same_core :
  forall m v',
    same_core (MainWindow.viewer m) v' ->
    consistent m -> consistent (MainWindow.set_viewer m v').
Proof.
  intros m v' Hc C. pose proof Hc as (_ & H2 & H3 & _).
  apply (consistent_transfer m); [repeat split | exact H2 | exact H3 | | exact C].
  exact (same_core_selection_ok _ _ Hc (c_selection m C)).
Qed.

Lemma consistent_doc_has_pages :
  forall m, consistent m -> MainWindow.doc m <> Some [].
Proof.
  intros m [C1 _ _ _] E. unfold index_in_range in C1. rewrite E in C1.
  cbn in C1. lia.
Qed.

Lemma consistent_scale_nonzero :
  forall m, consistent m ->
    ~ PdfViewerWidget.scale_factor (MainWindow.viewer m) == 0.
Proof.
  intros m [_ [Hv _] [Hlo _] _]. rewrite Hv. lra.
Qed.

(** The slot [update_selection_info] returns and touches neither the
    document state nor the viewer. *)
Lemma update_selection_info_ok :
  forall m s, MainWindow.doc m <> Some [] ->
    exists m',
      MainWindow.update_selection_info m s = Ok m' /\
      same_document m m' /\
      MainWindow.viewer m' = MainWindow.viewer m /\
      MainWindow.emitted m' = MainWindow.emitted m.
Proof.
  intros m s Hd. unfold MainWindow.update_selection_info.
  set (m1 := match s with Some _ => _ | None => _ end).
  assert (F : MainWindow.doc m1 = MainWindow.doc m /\
              MainWindow.current_page_index m1 = MainWindow.current_page_index m /\
              MainWindow.scale_factor m1 = MainWindow.scale_factor m /\
              MainWindow.viewer m1 = MainWindow.viewer m /\
              MainWindow.emitted m1 = MainWindow.emitted m).
  { subst m1. destruct s as [r|]; [destruct (truthy r)|]; repeat split. }
  clearbody m1. destruct F as (F1 & F2 & F3 & F4 & F5).
  destruct (update_controls_ok m1) as (b & Hb); [congruence|].
  rewrite Hb. eexists. split; [reflexivity|]. cbn.
  repeat split; assumption.
Qed.

Lemma deliver_ok :
  forall sigs m, MainWindow.doc m <> Some [] ->
    exists m',
      MainWindow.deliver m sigs = Ok m' /\
      same_document m m' /\
      MainWindow.viewer m' = MainWindow.viewer m /\
      MainWindow.emitted m' = (MainWindow.emitted m ++ sigs)%list.
Proof.
  induction sigs as [|s sigs IH]; intros m Hd.
  - exists m. cbn. rewrite app_nil_r. repeat split.
  - cbn [MainWindow.deliver].
    destruct (update_selection_info_ok (MainWindow.record_emitted m s) s Hd)
      as (m1 & H1 & (D1 & D2 & D3) & V1 & E1).
    rewrite H1. cbn [bind]. cbn in D1, D2, D3, V1, E1.
    destruct (IH m1) as (m' & H' & (D1' & D2' & D3') & V' & E'); [congruence|].
    exists m'. split; [exact H'|].
    repeat split; try congruence.
    rewrite E', E1, <- app_assoc. reflexivity.
Qed.

(** [load_page(keep_selection=False)] at a page of the document leaves a
    consistent state. *)
Lemma load_page_drop_consistent :
  forall (m : MainWindow.t) (d : Document),
    MainWindow.doc m = Some d ->
    (0 <= MainWindow.current_page_index m < page_count d)%Z ->
    scale_in_bounds (MainWindow.scale_factor m) ->
    exists m1, MainWindow.load_page m false = Ok m1 /\ consistent m1.
Proof.
  intros m d Hd Hi Hs.
  destruct (load_page_drop m d Hd Hi)
    as (m1 & p & Hl & Hn & Hdoc & Hidx & Hsc & _ & Hsel & Hpage & Hvs).
  exists m1. split; [exact Hl|]. constructor.
  - unfold index_in_range. rewrite Hdoc, Hd, Hidx. exact Hi.
  - unfold viewer_in_step. rewrite Hdoc, Hd, Hidx, Hsc. split; [exact Hvs|].
    exists p. auto.
  - rewrite Hsc. exact Hs.
  - unfold selection_ok. rewrite Hsel. exact I.
Qed.

Lemma update_controls_consistent :
  forall m, consistent m ->
    exists m', MainWindow._update_controls m = Ok m' /\ consistent m'.
Proof.
  intros m C.
  destruct (update_controls_ok m (consistent_doc_has_pages m C)) as (b & Hb).
  rewrite Hb. eexists. split; [reflexivity|].
  apply (consistent_same_viewer m); [repeat split | reflexivity | exact C].
Qed.

(** Moving to a page of the document: [load_page(keep_selection=False)],
    then [_update_controls]. *)
Lemma show_page_consistent :
  forall (m : MainWindow.t) (d : Document),
    MainWindow.doc m = Some d ->
    (0 <= MainWindow.current_page_index m < page_count d)%Z ->
    scale_in_bounds (MainWindow.scale_factor m) ->
    exists m',
      (m1 <- MainWindow.load_page m false ;; MainWindow._update_controls m1) = Ok m' /\
      consistent m'.
Proof.
  intros m d Hd Hi Hs.
  destruct (load_page_drop_consistent m d Hd Hi Hs) as (m1 & Hl & C1).
  rewrite Hl. cbn [bind]. apply update_controls_consistent, C1.
Qed.

Lemma zoom_consistent :
  forall (m : MainWindow.t) (s : Q),
    consistent m -> MainWindow.has_pages m = true -> scale_in_bounds s ->
    exists m',
      MainWindow.load_page (MainWindow.set_scale_factor m s) true = Ok m' /\
      consistent m'.
Proof.
  intros m s C Hp Hs. pose proof C as [C1 C2 C3 C4].
  destruct (zoom_to_scale m s C1) as (m' & H & Hdoc & Hidx & Hsc & _ & Hsel & Hv).
  exists m'. split; [exact H|].
  unfold MainWindow.has_pages in Hp. unfold viewer_in_step in C2.
  destruct (MainWindow.doc m) as [d|] eqn:Hd; [|discriminate].
  destruct Hv as (p & Hn & Hpage & Hvs).
  destruct C2 as (_ & p' & Hn' & Hpage').
  assert (p' = p) by congruence. subst p'.
  constructor.
  - unfold index_in_range in *. rewrite Hdoc, Hidx. rewrite Hd in C1. exact C1.
  - unfold viewer_in_step. rewrite Hdoc, Hidx, Hsc. split; [exact Hvs|].
    exists p. auto.
  - rewrite Hsc. exact Hs.
  - unfold selection_ok in *. rewrite Hsel, Hpage, <- Hpage'. exact C4.
Qed.

(** A document without pages, once opened, makes [_update_controls]
    raise. *)
Lemma open_pdf_without_pages :
  forall (m : MainWindow.t) (path : string),
    path <> ""%string ->
    MainWindow.open_pdf m path (Opened []) = Raise TypeError.
Proof.
  intros m path Hp. unfold MainWindow.open_pdf.
  destruct (String.eqb path "") eqn:E; [apply String.eqb_eq in E; contradiction|].
  reflexivity.
Qed.

(** Every command keeps the state consistent; the one command that raises
    is the opening of a document without pages. *)
Lemma step_consistent :
  forall (m : MainWindow.t) (c : MainWindow.command),
    consistent m ->
    (exists m', MainWindow.step m c = Ok m' /\ consistent m') \/
    (exists path, path <> ""%string /\ c = MainWindow.OpenPdf path (Opened []) /\
                  MainWindow.step m c = Raise TypeError).
Proof.
  intros m c C. pose proof C as [C1 C2 C3 C4].
  destruct c as [path attempt| | | | | | | |e|e|e|sz|sz]; cbn [MainWindow.step].
  - (* open_pdf *)
    destruct (String.eqb path "") eqn:E.
    + left. exists m. unfold MainWindow.open_pdf. rewrite E. auto.
    + destruct attempt as [[|p d]|msg].
      * right. exists path. split; [|split; [reflexivity|]].
        -- intros ->. discriminate E.
        -- apply open_pdf_without_pages. intros ->. discriminate E.
      * left. unfold MainWindow.open_pdf. rewrite E.
        set (m0 := MainWindow.set_scale_factor _ 1).
        destruct (load_page_drop_consistent m0 (p :: d)) as (m1 & Hl & K1).
        -- reflexivity.
        -- cbn. lia.
        -- apply one_scale_bounds.
        -- rewrite Hl. cbn [bind]. apply update_controls_consistent.
           apply (consistent_same_viewer m1); [repeat split | reflexivity | exact K1].
      * left. unfold MainWindow.open_pdf. rewrite E.
        eexists. split; [reflexivity|].
        apply (consistent_same_viewer m); [repeat split | reflexivity | exact C].
  - (* prev_page *)
    left. unfold MainWindow.prev_page, MainWindow.has_pages.
    unfold index_in_range in C1.
    destruct (MainWindow.doc m) as [d|] eqn:Hd; [|exists m; auto].
    destruct (doc_truthy d); [|exists m; auto]. cbn [andb].
    destruct (0 <? MainWindow.current_page_index m)%Z eqn:E; [|exists m; auto].
    apply Z.ltb_lt in E.
    apply (show_page_consistent _ d); [exact Hd | cbn; lia | exact C3].
  - (* next_page *)
    left. unfold MainWindow.next_page. unfold index_in_range in C1.
    destruct (MainWindow.doc m) as [d|] eqn:Hd; [|exists m; auto].
    destruct (doc_truthy d); [|exists m; auto]. cbn [andb].
    destruct (MainWindow.current_page_index m <? page_count d - 1)%Z eqn:E;
      [|exists m; auto].
    apply Z.ltb_lt in E.
    apply (show_page_consistent _ d); [exact Hd | cbn; lia | exact C3].
  - (* zoom_in *)
    left. unfold MainWindow.zoom_in.
    destruct (MainWindow.has_pages m) eqn:Hp; cbn [negb]; [|exists m; auto].
    apply zoom_consistent; [exact C | exact Hp | apply zoom_in_scale_bounds, C3].
  - (* zoom_out *)
    left. unfold MainWindow.zoom_out.
    destruct (MainWindow.has_pages m) eqn:Hp; cbn [negb]; [|exists m; auto].
    apply zoom_consistent; [exact C | exact Hp | apply zoom_out_scale_bounds, C3].
  - (* reset_zoom *)
    left. unfold MainWindow.reset_zoom.
    destruct (MainWindow.has_pages m) eqn:Hp; cbn [negb]; [|exists m; auto].
    apply zoom_consistent; [exact C | exact Hp | apply one_scale_bounds].
  - (* copy_rect *)
    left. eexists. split; [reflexivity|].
    apply (consistent_same_viewer m); [| |exact C];
      unfold MainWindow.copy_rect;
      destruct (PdfViewerWidget.current_pdf_rect (MainWindow.viewer m)) as [r|];
      try destruct (truthy r); repeat split.
  - (* clear_selection *)
    left.
    destruct (window_clear_selection_ok m (consistent_doc_has_pages m C))
      as (m' & H & Hv & _ & Hdoc & Hidx & Hsc & _).
    exists m'. split; [exact H|].
    destruct (viewer_clear_selection_core (MainWindow.viewer m)) as (_ & V2 & V3 & V4).
    cbv zeta in V2, V3, V4. rewrite <- Hv in V2, V3, V4.
    apply (consistent_transfer m); [repeat split; assumption | exact V2 | exact V3 | | exact C].
    unfold selection_ok. rewrite V4. exact I.
  - (* mousePressEvent *)
    left. eexists. split; [reflexivity|].
    apply consistent_same_core; [apply mousePressEvent_core | exact C].
  - (* mouseMoveEvent *)
    left. eexists. split; [reflexivity|].
    apply consistent_same_core; [apply mouseMoveEvent_core | exact C].
  - (* mouseReleaseEvent *)
    left.
    destruct (mouseReleaseEvent_result (MainWindow.viewer m) e
                (consistent_scale_nonzero m C) C4)
      as (v' & sigs & H & Hp & Hs & Hsel).
    rewrite H. cbn [bind fst snd].
    destruct (deliver_ok sigs (MainWindow.set_viewer m v'))
      as (m' & H' & (D1 & D2 & D3) & V' & _).
    { exact (consistent_doc_has_pages m C). }
    exists m'. split; [exact H'|].
    cbn in D1, D2, D3, V'.
    apply (consistent_transfer m); try (rewrite V'; assumption);
      [repeat split; assumption | exact C].
  - (* the viewport is resized *)
    left. eexists. split; [reflexivity|].
    apply consistent_same_core; [apply set_viewport_size_core | exact C].
  - (* the widget is resized *)
    left. eexists. split; [reflexivity|].
    apply consistent_same_core; [apply resize_core | exact C].
Qed.

Lemma init_consistent : consistent MainWindow.init.
Proof.
  constructor.
  - exact I.
  - split; [reflexivity | exact I].
  - apply one_scale_bounds.
  - exact I.
Qed.

Lemma run_consistent :
  forall (cs : list MainWindow.command) (m m' : MainWindow.t),
    consistent m -> MainWindow.run m cs = Ok m' -> consistent m'.
Proof.
  induction cs as [|c cs IH]; intros m m' C H.
  - cbn in H. injection H as <-. exact C.
  - cbn [MainWindow.run] in H.
    destruct (step_consistent m c C) as [(m1 & H1 & C1) | (path & _ & _ & H1)];
      rewrite H1 in H; cbn [bind] in H.
    + exact (IH m1 m' C1 H).
    + discriminate H.
Qed.

(** No run raises, unless it opens a document without pages. *)
Lemma run_returns :
  forall (cs : list MainWindow.command) (m : MainWindow.t),
    consistent m -> Forall opens_pages cs ->
    exists m', MainWindow.run m cs = Ok m' /\ consistent m'.
Proof.
  induction cs as [|c cs IH]; intros m C Hcs.
  - exists m. auto.
  - inversion Hcs as [|? ? Hc Hrest]; subst.
    cbn [MainWindow.run].
    destruct (step_consistent m c C) as [(m1 & H1 & C1) | (path & _ & -> & _)].
    + rewrite H1. cbn [bind]. exact (IH m1 C1 Hrest).
    + contradiction.
Qed.

(** C2.  In every state the program reaches from its start, by whatever
    commands (opening, page changes, zooms, clearing, copying, pointer
    events, resizes), the stored selection is absent or it is normalized,
    within the page rectangle the viewer holds, and of nonzero width and
    height, and that page rectangle is the one of the document's current
    page; and a run returns such a state whenever it opens no document
    without pages. *)
Theorem stored_selection_invariant :
  (forall (cs : list MainWindow.command) (m : MainWindow.t),
      MainWindow.run MainWindow.init cs = Ok m ->
      selection_ok (MainWindow.viewer m) /\ viewer_in_step m) /\
  (forall cs : list MainWindow.command,
      Forall opens_pages cs ->
      exists m, MainWindow.run MainWindow.init cs = Ok m /\
                selection_ok (MainWindow.viewer m) /\ viewer_in_step m).
Proof.
  split.
  - intros cs m H.
    pose proof (run_consistent cs _ m init_consistent H) as C.
    split; [exact (c_selection m C) | exact (c_viewer m C)].
  - intros cs Hcs.
    destruct (run_returns cs _ init_consistent Hcs) as (m & H & C).
    exists m. split; [exact H|].
    split; [exact (c_selection m C) | exact (c_viewer m C)].
Qed.

(** After opening a document of one page and a drag across it. *)
Lemma stored_selection_invariant_witness :
  (selection_ok (MainWindow.viewer Samples.committed_one_page) /\
   viewer_in_step Samples.committed_one_page) /\
  exists m,
    MainWindow.run MainWindow.init (Samples.open_and_drag Samples.one_page) = Ok m /\
    selection_ok (MainWindow.viewer m) /\ viewer_in_step m.
Proof.
  split.
  - apply (proj1 stored_selection_invariant (Samples.open_and_drag Samples.one_page)).
    vm_compute. reflexivity.
  - apply (proj2 stored_selection_invariant).
    unfold Samples.open_and_drag. repeat constructor.
Defined.

(** ** The centering offsets and the size of the widget *)

(** X1.  The centering offsets are (0, 0) without a pixmap and are never
    negative; on each axis, when the pixmap is no larger than the widget
    it is centered (twice the offset plus the extent of the pixmap is the
    extent of the widget), and when it is no smaller the offset is 0. *)
Theorem image_offsets_center :
  forall v : PdfViewerWidget.t,
    (PdfViewerWidget.pixmap v = None -> PdfViewerWidget.image_offsets v = (0, 0)) /\
    0 <= fst (PdfViewerWidget.image_offsets v) /\
    0 <= snd (PdfViewerWidget.image_offsets v) /\
    (forall pm, PdfViewerWidget.pixmap v = Some pm ->
       ((pm_width pm <= wd (PdfViewerWidget.size v))%Z ->
        2 * fst (PdfViewerWidget.image_offsets v) + inject_Z (pm_width pm)
          == inject_Z (wd (PdfViewerWidget.size v))) /\
       ((wd (PdfViewerWidget.size v) <= pm_width pm)%Z ->
        fst (PdfViewerWidget.image_offsets v) == 0) /\
       ((pm_height pm <= ht (PdfViewerWidget.size v))%Z ->
        2 * snd (PdfViewerWidget.image_offsets v) + inject_Z (pm_height pm)
          == inject_Z (ht (PdfViewerWidget.size v))) /\
       ((ht (PdfViewerWidget.size v) <= pm_height pm)%Z ->
        snd (PdfViewerWidget.image_offsets v) == 0)).
Proof.
  intro v. unfold PdfViewerWidget.image_offsets.
  destruct (PdfViewerWidget.pixmap v) as [pm|].
  - cbn [fst snd]. split; [discriminate|].
    split; [apply Q.le_max_r|]. split; [apply Q.le_max_r|].
    intros pm' E. injection E as <-.
    repeat split; intro H; rewrite Zle_Qle in H;
      unfold Z.sub; rewrite inject_Z_plus, inject_Z_opp;
      unfold Qdiv; change (/ 2) with (1 # 2); minmax.
  - cbn. repeat split; try reflexivity; try discriminate.
Qed.

Lemma image_offsets_center_witness :
  let v := PdfViewerWidget.resize
             (MainWindow.viewer Samples.committed_one_page) 400 150 in
  fst (PdfViewerWidget.image_offsets v) == 100 /\
  snd (PdfViewerWidget.image_offsets v) == 0 /\
  2 * fst (PdfViewerWidget.image_offsets v) + inject_Z 200 == inject_Z 400.
Proof.
  intro v. split; [reflexivity|]. split; [reflexivity|].
  destruct (image_offsets_center v) as (_ & _ & _ & H).
  destruct (H (mkQPixmap 200 200) eq_refl) as (H1 & _).
  apply H1. vm_compute. discriminate.
Defined.

(** What [_update_rubber_band_from_pdf] leaves alone besides the core. *)
Lemma update_rubber_band_frame :
  forall v,
    let v' := PdfViewerWidget._update_rubber_band_from_pdf v in
    PdfViewerWidget.size v' = PdfViewerWidget.size v /\
    PdfViewerWidget.minimum_size v' = PdfViewerWidget.minimum_size v /\
    PdfViewerWidget._viewport_size v' = PdfViewerWidget._viewport_size v /\
    PdfViewerWidget._dragging v' = PdfViewerWidget._dragging v /\
    PdfViewerWidget._drag_start v' = PdfViewerWidget._drag_start v.
Proof.
  intro v. unfold PdfViewerWidget._update_rubber_band_from_pdf.
  split_cases; repeat split.
Qed.

(** The size after [_update_widget_size] with a pixmap. *)
Lemma update_widget_size_size :
  forall v pm,
    PdfViewerWidget.pixmap v = Some pm ->
    let v' := PdfViewerWidget._update_widget_size v in
    let target :=
      mkQSize (Z.max (pm_width pm) (wd (PdfViewerWidget._viewport_size v)))
              (Z.max (pm_height pm) (ht (PdfViewerWidget._viewport_size v))) in
    PdfViewerWidget.size v' = target /\
    PdfViewerWidget.minimum_size v' = target /\
    PdfViewerWidget._viewport_size v' = PdfViewerWidget._viewport_size v.
Proof.
  intros v pm Hp. unfold PdfViewerWidget._update_widget_size. rewrite Hp.
  unfold PdfViewerWidget.resize, PdfViewerWidget.resizeEvent. cbv zeta.
  match goal with
  | |- context [PdfViewerWidget._update_rubber_band_from_pdf ?x] =>
      destruct (update_rubber_band_frame x) as (F1 & F2 & F3 & _)
  end.
  rewrite F1, F2, F3. repeat split.
Qed.

(** X2.  After [set_page] the pixmap is the page rendered at the new
    scale, and the widget is on each axis as large as the larger of the
    pixmap and the viewport, which is also its minimum size; after
    [set_viewport_size] with a pixmap the same holds for the new viewport
    size; without a pixmap [set_viewport_size] leaves the size alone. *)
Theorem widget_holds_pixmap_and_viewport :
  (forall (v : PdfViewerWidget.t) (page : Page) (scale : Q) (keep : bool),
      let v' := PdfViewerWidget.set_page v page scale keep in
      let pm := PdfViewerWidget._render_page_pixmap page scale in
      PdfViewerWidget.pixmap v' = Some pm /\
      wd (PdfViewerWidget.size v')
        = Z.max (pm_width pm) (wd (PdfViewerWidget._viewport_size v)) /\
      ht (PdfViewerWidget.size v')
        = Z.max (pm_height pm) (ht (PdfViewerWidget._viewport_size v)) /\
      PdfViewerWidget.minimum_size v' = PdfViewerWidget.size v') /\
  (forall (v : PdfViewerWidget.t) (sz : QSize) (pm : QPixmap),
      PdfViewerWidget.pixmap v = Some pm ->
      let v' := PdfViewerWidget.set_viewport_size v sz in
      PdfViewerWidget.pixmap v' = Some pm /\
      wd (PdfViewerWidget.size v') = Z.max (pm_width pm) (wd sz) /\
      ht (PdfViewerWidget.size v') = Z.max (pm_height pm) (ht sz) /\
      PdfViewerWidget.minimum_size v' = PdfViewerWidget.size v') /\
  (forall (v : PdfViewerWidget.t) (sz : QSize),
      PdfViewerWidget.pixmap v = None ->
      PdfViewerWidget.size (PdfViewerWidget.set_viewport_size v sz)
        = PdfViewerWidget.size v).
Proof.
  split; [|split].
  - intros v page scale keep v' pm.
    destruct (set_page_core v page scale keep) as (_ & _ & Hpix & _).
    split; [exact Hpix|].
    subst v'. unfold PdfViewerWidget.set_page.
    set (v1 := PdfViewerWidget.set_pixmap _ _).
    assert (Hp1 : PdfViewerWidget.pixmap v1 = Some pm) by reflexivity.
    assert (Hv1 : PdfViewerWidget._viewport_size v1 = PdfViewerWidget._viewport_size v)
      by reflexivity.
    clearbody v1.
    destruct (update_widget_size_size v1 pm Hp1) as (S1 & S2 & _).
    cbv zeta in S1, S2. rewrite Hv1 in S1, S2.
    set (v2 := PdfViewerWidget._update_widget_size v1) in *. clearbody v2.
    cbv zeta.
    match goal with
    | |- context [PdfViewerWidget._update_rubber_band_from_pdf ?x] =>
        destruct (update_rubber_band_frame x) as (F1 & F2 & _)
    end.
    rewrite F1, F2.
    destruct keep; cbn [negb]; cbn; rewrite S1, S2; repeat split.
  - intros v sz pm Hp v'.
    destruct (set_viewport_size_core v sz) as (Hpix & _).
    split; [fold v' in Hpix; congruence|].
    subst v'. unfold PdfViewerWidget.set_viewport_size.
    set (v1 := PdfViewerWidget.set_viewport v sz).
    assert (Hp1 : PdfViewerWidget.pixmap v1 = Some pm) by exact Hp.
    assert (Hv1 : PdfViewerWidget._viewport_size v1 = sz) by reflexivity.
    clearbody v1.
    destruct (update_widget_size_size v1 pm Hp1) as (S1 & S2 & _).
    cbv zeta in S1, S2. rewrite Hv1 in S1, S2.
    set (v2 := PdfViewerWidget._update_widget_size v1) in *. clearbody v2.
    destruct (update_rubber_band_frame v2) as (F1 & F2 & _).
    cbv zeta in F1, F2. cbv zeta. rewrite F1, F2, S1, S2. repeat split.
  - intros v sz Hp. unfold PdfViewerWidget.set_viewport_size.
    set (v1 := PdfViewerWidget.set_viewport v sz).
    assert (Hp1 : PdfViewerWidget.pixmap v1 = None) by exact Hp.
    assert (Hs1 : PdfViewerWidget.size v1 = PdfViewerWidget.size v) by reflexivity.
    clearbody v1. cbv zeta.
    unfold PdfViewerWidget._update_widget_size. rewrite Hp1.
    destruct (update_rubber_band_frame v1) as (F1 & _). cbv zeta in F1.
    rewrite F1. exact Hs1.
Qed.

Lemma widget_holds_pixmap_and_viewport_witness :
  let v := MainWindow.viewer Samples.committed_one_page in
  (let v' := PdfViewerWidget.set_viewport_size v (mkQSize 500 120) in
   PdfViewerWidget.pixmap v' = Some (mkQPixmap 200 200) /\
   wd (PdfViewerWidget.size v') = Z.max 200 500 /\
   ht (PdfViewerWidget.size v') = Z.max 200 120 /\
   PdfViewerWidget.minimum_size v' = PdfViewerWidget.size v') /\
  PdfViewerWidget.size
    (PdfViewerWidget.set_viewport_size PdfViewerWidget.init (mkQSize 500 120))
    = PdfViewerWidget.size PdfViewerWidget.init.
Proof.
  intro v. split.
  - apply (proj1 (proj2 widget_holds_pixmap_and_viewport) v (mkQSize 500 120)
             (mkQPixmap 200 200)).
    reflexivity.
  - apply (proj2 (proj2 widget_holds_pixmap_and_viewport)). reflexivity.
Defined.


(** ** What the window shows *)

Lemma same_presentation_sync :
  forall m m', same_presentation m m' ->
    (readout_in_sync m -> readout_in_sync m') /\
    (buttons_in_sync m -> buttons_in_sync m').
Proof.
  intros m m' (H1 & H2 & H3 & H4 & H5 & H6 & H7 & H8).
  unfold readout_in_sync, buttons_in_sync, expected_buttons.
  rewrite H1, H2, H3, H4, H5, H6, H7, H8. tauto.
Qed.

(** [_update_controls], when it returns, sets the buttons from the state
    and changes nothing else. *)
Lemma update_controls_shape :
  forall m m', MainWindow._update_controls m = Ok m' ->
    m' = MainWindow.set_buttons m (expected_buttons m).
Proof.
  intros m m'. unfold MainWindow._update_controls, expected_buttons,
    PdfViewerWidget.current_pdf_rect.
  destruct (MainWindow.doc m) as [[|p d]|]; cbn; intro H;
    try discriminate H; injection H as <-; reflexivity.
Qed.

Lemma update_controls_sync :
  forall m m', MainWindow._update_controls m = Ok m' ->
    buttons_in_sync m' /\ (readout_in_sync m -> readout_in_sync m') /\
    MainWindow.doc m' = MainWindow.doc m /\
    MainWindow.current_page_index m' = MainWindow.current_page_index m /\
    MainWindow.viewer m' = MainWindow.viewer m.
Proof.
  intros m m' H. apply update_controls_shape in H. subst m'.
  split; [reflexivity|]. split; [|repeat split].
  unfold readout_in_sync. cbn. tauto.
Qed.

(** [update_selection_info], when it returns, sets the readout of its
    argument and the buttons. *)
Lemma update_selection_info_shape :
  forall m s m', MainWindow.update_selection_info m s = Ok m' ->
    (MainWindow.rect_label m', MainWindow.size_label m', MainWindow.json_view m')
      = readout (MainWindow.current_page_index m) s /\
    buttons_in_sync m' /\
    MainWindow.doc m' = MainWindow.doc m /\
    MainWindow.current_page_index m' = MainWindow.current_page_index m /\
    MainWindow.viewer m' = MainWindow.viewer m /\
    MainWindow.emitted m' = MainWindow.emitted m.
Proof.
  intros m s m' H. unfold MainWindow.update_selection_info in H.
  set (m1 := match s with Some _ => _ | None => _ end) in H.
  assert (F : (MainWindow.rect_label m1, MainWindow.size_label m1,
               MainWindow.json_view m1)
              = readout (MainWindow.current_page_index m) s /\
              MainWindow.doc m1 = MainWindow.doc m /\
              MainWindow.current_page_index m1 = MainWindow.current_page_index m /\
              MainWindow.viewer m1 = MainWindow.viewer m /\
              MainWindow.emitted m1 = MainWindow.emitted m).
  { subst m1. unfold readout.
    destruct s as [r|]; [destruct (truthy r)|]; repeat split. }
  clearbody m1. destruct F as (F0 & F1 & F2 & F3 & F4).
  pose proof (update_controls_sync m1 m' H) as (B & _ & D1 & D2 & D3).
  apply update_controls_shape in H.
  split; [rewrite H; exact F0|]. split; [exact B|].
  rewrite H in *. cbn. repeat split; assumption.
Qed.

(** Delivering the one notification of the stored selection brings the
    readout, the buttons and the record of emissions in step with it. *)
Lemma deliver_selection_sync :
  forall m m',
    MainWindow.deliver m [PdfViewerWidget._pdf_selection (MainWindow.viewer m)] = Ok m' ->
    readout_in_sync m' /\ buttons_in_sync m' /\
    MainWindow.doc m' = MainWindow.doc m /\
    MainWindow.current_page_index m' = MainWindow.current_page_index m /\
    MainWindow.viewer m' = MainWindow.viewer m.
Proof.
  intros m m' H. cbn [MainWindow.deliver] in H.
  destruct (MainWindow.update_selection_info _ _) as [m1|e] eqn:E;
    cbn [bind] in H; [|discriminate H].
  injection H as <-.
  destruct (update_selection_info_shape _ _ _ E) as (R & B & D1 & D2 & D3 & D4).
  cbn in R, D1, D2, D3, D4.
  split; [|repeat split; assumption].
  unfold readout_in_sync. rewrite R, D2, D3, D4. split; [reflexivity|].
  apply last_last.
Qed.

Lemma deliver_nothing :
  forall m m', MainWindow.deliver m [] = Ok m' -> m' = m.
Proof. intros m m' H. cbn in H. congruence. Qed.

(** What [mouseReleaseEvent] returns: the viewer as it was and nothing
    emitted, or one emission, of the selection then stored. *)
Lemma mouseReleaseEvent_shape :
  forall v e v' sigs,
    PdfViewerWidget.mouseReleaseEvent v e = Ok (v', sigs) ->
    (v' = v /\ sigs = []) \/ sigs = [PdfViewerWidget._pdf_selection v'].
Proof.
  intros v e v' sigs. unfold PdfViewerWidget.mouseReleaseEvent.
  destruct (is_left (button e) && PdfViewerWidget._dragging v);
    [|intro H; injection H as <- <-; auto].
  destruct (PdfViewerWidget.pixmap v); [|intro H; injection H as <- <-; auto].
  destruct (PdfViewerWidget._widget_rect_to_pdf _ _) as [o|]; cbn [bind];
    [|discriminate].
  intro H. injection H as <- <-. right. reflexivity.
Qed.

(** What [load_page], when it returns, has done. *)
Lemma load_page_shape :
  forall m keep m',
    MainWindow.load_page m keep = Ok m' ->
    (MainWindow.has_pages m = false /\ m' = m) \/
    (exists d p,
        MainWindow.doc m = Some d /\ MainWindow.has_pages m = true /\
        if keep then m' = page_shown m d p true
        else MainWindow.clear_selection (page_shown m d p false) = Ok m').
Proof.
  intros m keep m'. unfold MainWindow.load_page, MainWindow.has_pages.
  destruct (MainWindow.doc m) as [d|]; [|intro H; injection H as <-; auto].
  destruct (doc_truthy d); cbn [negb]; [|intro H; injection H as <-; auto].
  destruct (Fitz.load_page d _) as [p|]; cbn [bind]; [|discriminate].
  intro H. right. exists d, p. split; [reflexivity|]. split; [reflexivity|].
  unfold page_shown, page_label_text. cbv zeta in H.
  destruct keep; cbn [negb] in H; [injection H as <-; reflexivity | exact H].
Qed.

Lemma page_shown_presentation :
  forall m d p, same_presentation m (page_shown m d p true).
Proof.
  intros m d p.
  destruct (set_page_core (MainWindow.viewer m) p (MainWindow.scale_factor m) true)
    as (_ & _ & _ & S4).
  unfold same_presentation. repeat split. exact S4.
Qed.

(** [clear_selection] of the window, when it returns, leaves everything in
    step. *)
Lemma window_clear_selection_sync :
  forall m m', MainWindow.clear_selection m = Ok m' ->
    readout_in_sync m' /\ buttons_in_sync m' /\
    MainWindow.doc m' = MainWindow.doc m /\
    MainWindow.current_page_index m' = MainWindow.current_page_index m /\
    PdfViewerWidget._pdf_selection (MainWindow.viewer m') = None.
Proof.
  intros m m' H. unfold MainWindow.clear_selection in H.
  cbn [PdfViewerWidget.clear_selection] in H.
  match type of H with
  | MainWindow.deliver ?m1 _ = _ =>
      destruct (deliver_selection_sync m1 m' H) as (R & B & D1 & D2 & D3)
  end.
  split; [exact R|]. split; [exact B|]. split; [exact D1|]. split; [exact D2|].
  rewrite D3. reflexivity.
Qed.

Lemma load_page_drop_sync :
  forall m m', MainWindow.load_page m false = Ok m' ->
    MainWindow.has_pages m = true ->
    readout_in_sync m' /\ buttons_in_sync m'.
Proof.
  intros m m' H Hp.
  destruct (load_page_shape m false m' H) as [(Hn & _)|(d & p & _ & _ & Hc)];
    [congruence|].
  destruct (window_clear_selection_sync _ _ Hc) as (R & B & _). auto.
Qed.

Lemma show_page_sync :
  forall m m',
    MainWindow.has_pages m = true ->
    (m1 <- MainWindow.load_page m false ;; MainWindow._update_controls m1) = Ok m' ->
    readout_in_sync m' /\ buttons_in_sync m'.
Proof.
  intros m m' Hp H.
  destruct (MainWindow.load_page m false) as [m1|] eqn:E; cbn [bind] in H;
    [|discriminate H].
  destruct (load_page_drop_sync m m1 E Hp) as (R & _).
  destruct (update_controls_sync m1 m' H) as (B & R' & _). auto.
Qed.

Lemma zoom_sync :
  forall m s m',
    MainWindow.load_page (MainWindow.set_scale_factor m s) true = Ok m' ->
    same_presentation m m'.
Proof.
  intros m s m' H.
  destruct (load_page_shape _ true m' H) as [(_ & ->)|(d & p & _ & _ & ->)].
  - repeat split.
  - destruct (page_shown_presentation (MainWindow.set_scale_factor m s) d p)
      as (H1 & H2 & H3 & H4 & H5 & H6 & H7 & H8).
    repeat split; assumption.
Qed.

(** Every command keeps the readout, the buttons and the record of
    emissions in step with the stored selection. *)
Lemma step_sync :
  forall (m : MainWindow.t) (c : MainWindow.command) (m' : MainWindow.t),
    readout_in_sync m -> buttons_in_sync m ->
    MainWindow.step m c = Ok m' ->
    readout_in_sync m' /\ buttons_in_sync m'.
Proof.
  intros m c m' R B H.
  assert (Keep : same_presentation m m' -> readout_in_sync m' /\ buttons_in_sync m').
  { intro S. destruct (same_presentation_sync m m' S). auto. }
  destruct c as [path attempt| | | | | | | |e|e|e|sz|sz]; cbn [MainWindow.step] in H.
  - (* open_pdf *)
    unfold MainWindow.open_pdf in H.
    destruct (String.eqb path ""); [injection H as <-; auto|].
    destruct attempt as [d|msg].
    + destruct (MainWindow.load_page _ false) as [m1|] eqn:E; cbn [bind] in H;
        [|discriminate H].
      destruct d as [|p d].
      * (* no pages: [_update_controls] raises *)
        unfold MainWindow.load_page in E. cbn in E. injection E as <-.
        discriminate H.
      * destruct (load_page_drop_sync _ m1 E eq_refl) as (R1 & _).
        destruct (update_controls_sync _ m' H) as (B' & R' & _).
        split; [|exact B']. apply R'. exact R1.
    + injection H as <-. apply Keep. repeat split.
  - (* prev_page *)
    unfold MainWindow.prev_page in H.
    destruct (MainWindow.has_pages m) eqn:Hp; cbn [andb] in H;
      [|injection H as <-; auto].
    destruct (0 <? MainWindow.current_page_index m)%Z; [|injection H as <-; auto].
    refine (show_page_sync _ m' _ H). exact Hp.
  - (* next_page *)
    unfold MainWindow.next_page in H.
    destruct (MainWindow.doc m) as [d|] eqn:Hd; [|injection H as <-; auto].
    destruct (doc_truthy d) eqn:Ht; cbn [andb] in H; [|injection H as <-; auto].
    destruct (MainWindow.current_page_index m <? page_count d - 1)%Z;
      [|injection H as <-; auto].
    refine (show_page_sync _ m' _ H).
    unfold MainWindow.has_pages. cbn. rewrite Hd. exact Ht.
  - (* zoom_in *)
    unfold MainWindow.zoom_in in H.
    destruct (MainWindow.has_pages m); cbn [negb] in H; [|injection H as <-; auto].
    apply Keep. exact (zoom_sync _ _ _ H).
  - (* zoom_out *)
    unfold MainWindow.zoom_out in H.
    destruct (MainWindow.has_pages m); cbn [negb] in H; [|injection H as <-; auto].
    apply Keep. exact (zoom_sync _ _ _ H).
  - (* reset_zoom *)
    unfold MainWindow.reset_zoom in H.
    destruct (MainWindow.has_pages m); cbn [negb] in H; [|injection H as <-; auto].
    apply Keep. exact (zoom_sync _ _ _ H).
  - (* copy_rect *)
    injection H as <-. apply Keep. unfold MainWindow.copy_rect.
    destruct (PdfViewerWidget.current_pdf_rect (MainWindow.viewer m)) as [r|];
      [destruct (truthy r)|]; repeat split.
  - (* clear_selection *)
    destruct (window_clear_selection_sync m m' H) as (R' & B' & _). auto.
  - (* mousePressEvent *)
    injection H as <-. apply Keep.
    destruct (mousePressEvent_core (MainWindow.viewer m) e) as (_ & _ & _ & S4).
    repeat split. exact S4.
  - (* mouseMoveEvent *)
    injection H as <-. apply Keep.
    destruct (mouseMoveEvent_core (MainWindow.viewer m) e) as (_ & _ & _ & S4).
    repeat split. exact S4.
  - (* mouseReleaseEvent *)
    destruct (PdfViewerWidget.mouseReleaseEvent (MainWindow.viewer m) e)
      as [[v' sigs]|] eqn:E; cbn [bind fst snd] in H; [|discriminate H].
    destruct (mouseReleaseEvent_shape _ _ _ _ E) as [(-> & ->)| ->].
    + apply deliver_nothing in H. subst m'. apply Keep. repeat split.
    + destruct (deliver_selection_sync (MainWindow.set_viewer m v') m' H)
        as (R' & B' & _). auto.
  - (* the viewport is resized *)
    injection H as <-. apply Keep.
    destruct (set_viewport_size_core (MainWindow.viewer m) sz) as (_ & _ & _ & S4).
    repeat split. exact S4.
  - (* the widget is resized *)
    injection H as <-. apply Keep.
    destruct (resize_core (MainWindow.viewer m) (wd sz) (ht sz)) as (_ & _ & _ & S4).
    repeat split. exact S4.
Qed.

Lemma run_sync :
  forall (cs : list MainWindow.command) (m m' : MainWindow.t),
    readout_in_sync m -> buttons_in_sync m ->
    MainWindow.run m cs = Ok m' ->
    readout_in_sync m' /\ buttons_in_sync m'.
Proof.
  induction cs as [|c cs IH]; intros m m' R B H.
  - cbn in H. injection H as <-. auto.
  - cbn [MainWindow.run] in H.
    destruct (MainWindow.step m c) as [m1|] eqn:E; cbn [bind] in H; [|discriminate H].
    destruct (step_sync m c m1 R B E) as (R1 & B1).
    exact (IH m1 m' R1 B1 H).
Qed.

Lemma init_sync : readout_in_sync MainWindow.init /\ buttons_in_sync MainWindow.init.
Proof. repeat split. Qed.


(** X3.  In every state the program reaches from its start the labels and
    the JSON view show the stored selection: its coordinates and its size
    with two decimals and the number of the current page counted from 1,
    or the placeholders and an empty JSON view when nothing is stored. *)
Theorem readout_shows_selection :
  forall (cs : list MainWindow.command) (m : MainWindow.t),
    MainWindow.run MainWindow.init cs = Ok m ->
    match PdfViewerWidget._pdf_selection (MainWindow.viewer m) with
    | None =>
        MainWindow.rect_label m = "Rect: -"%string /\
        MainWindow.size_label m = "Size: -"%string /\
        MainWindow.json_view m = None
    | Some r =>
        MainWindow.rect_label m =
          ("Rect: (" ++ format_2f (x0 r) ++ ", " ++ format_2f (y0 r) ++ ", "
             ++ format_2f (x1 r) ++ ", " ++ format_2f (y1 r) ++ ")")%string /\
        MainWindow.size_label m =
          ("Size: " ++ format_2f (width r) ++ " x " ++ format_2f (height r))%string /\
        MainWindow.json_view m =
          Some ((MainWindow.current_page_index m + 1)%Z, [x0 r; y0 r; x1 r; y1 r])
    end.
Proof.
  intros cs m H.
  destruct init_sync as (R0 & B0).
  destruct (run_sync cs _ m R0 B0 H) as ((R & _) & _).
  pose proof (c_selection m (run_consistent cs _ m init_consistent H)) as S.
  unfold selection_ok in S. unfold readout in R.
  destruct (PdfViewerWidget._pdf_selection (MainWindow.viewer m)) as [r|].
  - destruct S as (pg & _ & _ & _ & Hw & _).
    rewrite (nonzero_width_truthy r Hw) in R.
    injection R as R1 R2 R3. auto.
  - injection R as R1 R2 R3. auto.
Qed.

Lemma readout_shows_selection_witness :
  let m := Samples.committed_one_page in
  MainWindow.rect_label m = "Rect: (10.00, 10.00, 50.00, 50.00)"%string /\
  MainWindow.size_label m = "Size: 40.00 x 40.00"%string /\
  MainWindow.json_view m = Some (1%Z, [20 # 2; 20 # 2; 100 # 2; 100 # 2]).
Proof.
  intro m.
  assert (H : MainWindow.run MainWindow.init (Samples.open_and_drag Samples.one_page)
              = Ok m) by (vm_compute; reflexivity).
  pose proof (readout_shows_selection _ _ H) as R.
  assert (S : PdfViewerWidget._pdf_selection (MainWindow.viewer m)
              = Some (mkRect (20 # 2) (20 # 2) (100 # 2) (100 # 2))) by reflexivity.
  rewrite S in R. destruct R as (R1 & R2 & R3).
  rewrite R1, R2, R3. repeat split.
Defined.

(** X4.  In every state the program reaches from its start the buttons
    are as [_update_controls] sets them from the document, the page number
    and the selection of that state; so Copy is enabled exactly when a
    selection is stored and Zoom In exactly when a document is open. *)
Theorem buttons_reflect_state :
  forall (cs : list MainWindow.command) (m : MainWindow.t),
    MainWindow.run MainWindow.init cs = Ok m ->
    MainWindow.buttons m = expected_buttons m /\
    (MainWindow.btn_copy (MainWindow.buttons m) = true <->
     PdfViewerWidget._pdf_selection (MainWindow.viewer m) <> None) /\
    (MainWindow.btn_zoom_in (MainWindow.buttons m) = true <->
     MainWindow.doc m <> None).
Proof.
  intros cs m H.
  destruct init_sync as (R0 & B0).
  destruct (run_sync cs _ m R0 B0 H) as (_ & B).
  unfold buttons_in_sync in B. split; [exact B|]. rewrite B.
  unfold expected_buttons. cbn.
  split.
  - destruct (PdfViewerWidget._pdf_selection (MainWindow.viewer m));
      split; congruence.
  - destruct (MainWindow.doc m); split; congruence.
Qed.

Lemma buttons_reflect_state_witness :
  let m := Samples.committed_two_pages in
  MainWindow.buttons m = MainWindow.mkButtons false true true true true true /\
  (MainWindow.btn_copy (MainWindow.buttons m) = true <->
   PdfViewerWidget._pdf_selection (MainWindow.viewer m) <> None) /\
  (MainWindow.btn_zoom_in (MainWindow.buttons m) = true <->
   MainWindow.doc m <> None).
Proof.
  intro m.
  assert (H : MainWindow.run MainWindow.init (Samples.open_and_drag Samples.two_pages)
              = Ok m) by (vm_compute; reflexivity).
  destruct (buttons_reflect_state _ _ H) as (B & B1 & B2).
  split; [|split; assumption].
  rewrite B. vm_compute. reflexivity.
Defined.

(** X5.  In every state the program reaches from its start the stored
    selection is the payload of the last [selection_changed] emitted, and
    nothing is stored when nothing was emitted yet. *)
Theorem last_notification_is_selection :
  forall (cs : list MainWindow.command) (m : MainWindow.t),
    MainWindow.run MainWindow.init cs = Ok m ->
    last (MainWindow.emitted m) None =
      PdfViewerWidget._pdf_selection (MainWindow.viewer m).
Proof.
  intros cs m H.
  destruct init_sync as (R0 & B0).
  destruct (run_sync cs _ m R0 B0 H) as ((_ & L) & _).
  exact L.
Qed.

Lemma last_notification_is_selection_witness :
  let m := Samples.committed_one_page in
  last (MainWindow.emitted m) None
    = Some (mkRect (20 # 2) (20 # 2) (100 # 2) (100 # 2)).
Proof.
  intro m.
  assert (H : MainWindow.run MainWindow.init (Samples.open_and_drag Samples.one_page)
              = Ok m) by (vm_compute; reflexivity).
  rewrite (last_notification_is_selection _ _ H). reflexivity.
Defined.

(** X14.  In every state the program reaches from its start, whatever the
    commands, the scale is within [0.2, 6.0], the viewer has the scale of
    the window, and with a document open the page number is one of its
    pages. *)
Theorem reachable_page_and_scale :
  forall (cs : list MainWindow.command) (m : MainWindow.t),
    MainWindow.run MainWindow.init cs = Ok m ->
    (1 # 5) <= MainWindow.scale_factor m /\ MainWindow.scale_factor m <= 6 /\
    PdfViewerWidget.scale_factor (MainWindow.viewer m) = MainWindow.scale_factor m /\
    forall d, MainWindow.doc m = Some d ->
              (0 <= MainWindow.current_page_index m < page_count d)%Z.
Proof.
  intros cs m H.
  destruct (run_consistent cs _ m init_consistent H) as [C1 [C2 _] [C3 C3'] _].
  repeat split; try assumption;
    unfold index_in_range in C1; rewrite H0 in C1; lia.
Qed.

Lemma reachable_page_and_scale_witness :
  let m := Samples.committed_second_page in
  (1 # 5) <= MainWindow.scale_factor m /\ MainWindow.scale_factor m <= 6 /\
  PdfViewerWidget.scale_factor (MainWindow.viewer m) = MainWindow.scale_factor m /\
  (0 <= MainWindow.current_page_index m < page_count Samples.two_pages)%Z.
Proof.
  intro m.
  assert (H : MainWindow.run MainWindow.init
                (Samples.open_and_drag Samples.two_pages ++
                 [MainWindow.NextPage;
                  MainWindow.MousePress (Samples.mouse LeftButton 10 10);
                  MainWindow.MouseRelease (Samples.mouse LeftButton 49 49)])%list
              = Ok m) by (vm_compute; reflexivity).
  destruct (reachable_page_and_scale _ _ H) as (H1 & H2 & H3 & H4).
  split; [exact H1|]. split; [exact H2|]. split; [exact H3|].
  apply H4. reflexivity.
Defined.


(** ** The conversion from widget space, further *)

(** [_widget_rect_to_pdf] reads the page rectangle, the scale, the pixmap
    and the size of the widget, and nothing else. *)
Lemma widget_rect_to_pdf_frame :
  forall v v' s,
    PdfViewerWidget.page_rect v' = PdfViewerWidget.page_rect v ->
    PdfViewerWidget.scale_factor v' = PdfViewerWidget.scale_factor v ->
    PdfViewerWidget.pixmap v' = PdfViewerWidget.pixmap v ->
    PdfViewerWidget.size v' = PdfViewerWidget.size v ->
    PdfViewerWidget._widget_rect_to_pdf v' s = PdfViewerWidget._widget_rect_to_pdf v s.
Proof.
  intros v v' s H1 H2 H3 H4.
  unfold PdfViewerWidget._widget_rect_to_pdf, PdfViewerWidget.image_offsets.
  rewrite H1, H2, H3, H4. reflexivity.
Qed.

Lemma pdf_rect_to_widget_frame :
  forall v v' r,
    PdfViewerWidget.scale_factor v' = PdfViewerWidget.scale_factor v ->
    PdfViewerWidget.pixmap v' = PdfViewerWidget.pixmap v ->
    PdfViewerWidget.size v' = PdfViewerWidget.size v ->
    PdfViewerWidget._pdf_rect_to_widget v' r = PdfViewerWidget._pdf_rect_to_widget v r.
Proof.
  intros v v' r H2 H3 H4.
  unfold PdfViewerWidget._pdf_rect_to_widget, PdfViewerWidget.image_offsets.
  rewrite H2, H3, H4. reflexivity.
Qed.

(** X13.  [_widget_rect_to_pdf] raises exactly when the page rectangle is
    set and truthy and the scale is 0, and the exception then is
    [ZeroDivisionError]; without a page rectangle it returns even at
    scale 0. *)
Theorem widget_rect_to_pdf_raises_iff :
  forall (v : PdfViewerWidget.t) (s : QRectF) (e : exn),
    PdfViewerWidget._widget_rect_to_pdf v s = Raise e <->
    e = ZeroDivisionError /\
    PdfViewerWidget.scale_factor v == 0 /\
    exists pg, PdfViewerWidget.page_rect v = Some pg /\ truthy pg = true.
Proof.
  intros v s e. unfold PdfViewerWidget._widget_rect_to_pdf.
  destruct (PdfViewerWidget.page_rect v) as [pg|].
  - destruct (truthy pg) eqn:Ht; cbn [negb].
    + destruct (PdfViewerWidget.image_offsets v) as [ox oy]. unfold pydiv.
      destruct (Qeq_bool (PdfViewerWidget.scale_factor v) 0) eqn:E; cbn [bind].
      * apply Qeq_bool_eq in E. split.
        -- intro H. injection H as <-. split; [reflexivity|]. split; [exact E|].
           exists pg. auto.
        -- intros (-> & _). reflexivity.
      * apply Qeq_bool_neq in E.
        split; [|intros (_ & Hz & _); contradiction].
        destruct (_ || _); discriminate.
    + split; [discriminate|]. intros (_ & _ & pg' & Hp & Ht').
      injection Hp as <-. congruence.
  - split; [discriminate|]. intros (_ & _ & pg' & Hp & _). discriminate Hp.
Qed.

Lemma widget_rect_to_pdf_raises_iff_witness :
  let v := PdfViewerWidget.set_page PdfViewerWidget.init (Samples.page 200 200) 0 false in
  PdfViewerWidget._widget_rect_to_pdf v (mkQRectF 10 10 40 40)
    = Raise ZeroDivisionError.
Proof.
  intro v. apply (proj2 (widget_rect_to_pdf_raises_iff v _ _)).
  split; [reflexivity|]. split; [reflexivity|].
  exists (mkRect 0 0 200 200). split; reflexivity.
Defined.

(** X12.  A rectangle that [_widget_rect_to_pdf] returns is the
    intersection of the page rectangle with the normalized corners of the
    widget rectangle in page space: it lies within both, and every
    rectangle within both lies within it. *)
Theorem conversion_is_intersection :
  forall (v : PdfViewerWidget.t) (pg r : Rect) (s : QRectF),
    PdfViewerWidget.page_rect v = Some pg ->
    PdfViewerWidget._widget_rect_to_pdf v s = Ok (Some r) ->
    let c := normalize (corners v s) in
    rect_inside pg r /\ rect_inside c r /\
    forall q : Rect,
      rect_inside pg q -> rect_inside c q -> rect_inside r q.
Proof.
  intros v pg r s Hpage H c.
  assert (Hs : ~ PdfViewerWidget.scale_factor v == 0).
  { intro Hz. unfold PdfViewerWidget._widget_rect_to_pdf in H. rewrite Hpage in H.
    destruct (negb (truthy pg)); [discriminate H|].
    destruct (PdfViewerWidget.image_offsets v) as [ox oy]. unfold pydiv in H.
    destruct (Qeq_bool (PdfViewerWidget.scale_factor v) 0) eqn:E.
    - discriminate H.
    - apply Qeq_bool_neq in E. contradiction. }
  rewrite (widget_rect_to_pdf_with_page v pg s Hpage Hs) in H.
  destruct (negb (truthy pg)); [discriminate H|]. cbv zeta in H.
  fold c in H.
  destruct (Qeq_bool (width (clamp pg c)) 0) eqn:E1; cbn [orb] in H;
    [discriminate H|].
  destruct (Qeq_bool (height (clamp pg c)) 0) eqn:E2; [discriminate H|].
  injection H as <-.
  apply Qeq_bool_neq in E1, E2.
  clearbody c. unfold width, height, clamp, rect_inside in *. cbn in *.
  split; [repeat split; minmax|]. split; [repeat split; minmax|].
  intros q (Q1 & Q2 & Q3 & Q4) (Q5 & Q6 & Q7 & Q8).
  repeat split; minmax.
Qed.

Lemma conversion_is_intersection_witness :
  let v := MainWindow.viewer Samples.committed_one_page in
  let r := mkRect (300 # 2) 0 200 (60 # 2) in
  PdfViewerWidget._widget_rect_to_pdf v (mkQRectF 150 (-20) 100 50) = Ok (Some r) /\
  rect_inside (mkRect 0 0 200 200) r /\
  rect_inside (normalize (corners v (mkQRectF 150 (-20) 100 50))) r.
Proof.
  intros v r.
  assert (H : PdfViewerWidget._widget_rect_to_pdf v (mkQRectF 150 (-20) 100 50)
              = Ok (Some r)) by (vm_compute; reflexivity).
  split; [exact H|].
  destruct (conversion_is_intersection v (mkRect 0 0 200 200) r _ eq_refl H)
    as (H1 & H2 & _).
  split; assumption.
Defined.


(** ** A drag, from press to release *)

Lemma mouseMoveEvent_frame :
  forall v e,
    let v' := PdfViewerWidget.mouseMoveEvent v e in
    same_core v v' /\ PdfViewerWidget.size v' = PdfViewerWidget.size v /\
    PdfViewerWidget._dragging v' = PdfViewerWidget._dragging v /\
    PdfViewerWidget._drag_start v' = PdfViewerWidget._drag_start v.
Proof.
  intros v e. cbv zeta. unfold PdfViewerWidget.mouseMoveEvent.
  destruct (PdfViewerWidget._dragging v) eqn:D;
    [destruct (PdfViewerWidget.pixmap v)|]; repeat split; cbn; auto.
Qed.

Lemma moves_frame :
  forall es v,
    same_core v (moves v es) /\
    PdfViewerWidget.size (moves v es) = PdfViewerWidget.size v /\
    PdfViewerWidget._dragging (moves v es) = PdfViewerWidget._dragging v /\
    PdfViewerWidget._drag_start (moves v es) = PdfViewerWidget._drag_start v.
Proof.
  induction es as [|e es IH]; intro v.
  - repeat split.
  - cbn [moves fold_left].
    destruct (mouseMoveEvent_frame v e) as (C & S & D & P). cbv zeta in C, S, D, P.
    destruct (IH (PdfViewerWidget.mouseMoveEvent v e)) as (C' & S' & D' & P').
    unfold moves in *.
    split; [exact (same_core_trans _ _ _ C C')|].
    repeat split; congruence.
Qed.

Lemma mousePressEvent_frame :
  forall v e pm,
    PdfViewerWidget.pixmap v = Some pm -> button e = LeftButton ->
    let v' := PdfViewerWidget.mousePressEvent v e in
    same_core v v' /\ PdfViewerWidget.size v' = PdfViewerWidget.size v /\
    PdfViewerWidget._dragging v' = true /\
    PdfViewerWidget._drag_start v' = toPoint (position e).
Proof.
  intros v e pm Hp Hb. cbv zeta. unfold PdfViewerWidget.mousePressEvent.
  rewrite Hp, Hb. cbn. repeat split.
Qed.

(** The release that ends a drag. *)
Lemma mouseReleaseEvent_commits :
  forall v e pm,
    PdfViewerWidget.pixmap v = Some pm -> button e = LeftButton ->
    PdfViewerWidget._dragging v = true ->
    forall sel,
      PdfViewerWidget._widget_rect_to_pdf v
        (drag_rect (PdfViewerWidget._drag_start v) (toPoint (position e))) = Ok sel ->
      exists v',
        PdfViewerWidget.mouseReleaseEvent v e = Ok (v', [sel]) /\
        PdfViewerWidget._pdf_selection v' = sel /\
        PdfViewerWidget._dragging v' = false.
Proof.
  intros v e pm Hp Hb Hd sel Hsel.
  unfold PdfViewerWidget.mouseReleaseEvent. rewrite Hp, Hb, Hd. cbn [is_left andb].
  fold (drag_rect (PdfViewerWidget._drag_start
                     (PdfViewerWidget.set_dragging v false)) (toPoint (position e))).
  change (PdfViewerWidget._drag_start (PdfViewerWidget.set_dragging v false))
    with (PdfViewerWidget._drag_start v).
  set (rect := drag_rect _ _) in *.
  set (v1 := PdfViewerWidget.set_selection_widget_rect _ _).
  assert (E : PdfViewerWidget._widget_rect_to_pdf v1 rect = Ok sel).
  { rewrite <- Hsel. apply widget_rect_to_pdf_frame; reflexivity. }
  assert (D1 : PdfViewerWidget._dragging v1 = false) by reflexivity.
  clearbody v1. rewrite E. cbn [bind].
  destruct (update_rubber_band_core (PdfViewerWidget.set_pdf_selection v1 sel))
    as (_ & _ & _ & R4).
  destruct (update_rubber_band_frame (PdfViewerWidget.set_pdf_selection v1 sel))
    as (_ & _ & _ & F4 & _).
  cbv zeta in F4. cbn in R4, F4.
  eexists. split; [rewrite R4; reflexivity|]. split; [exact R4|].
  rewrite F4. exact D1.
Qed.

(** X9.  With a pixmap and a scale that is not 0, a press of the left
    button, any pointer moves, and a release of the left button end the
    drag, store the conversion (in the state before the press) of the
    normalized rectangle between the point of the press and the point of
    the release, and emit that selection once; the moves in between do
    not matter. *)
Theorem drag_commits_span :
  forall (v : PdfViewerWidget.t) (pm : QPixmap)
         (press release : QMouseEvent) (es : list QMouseEvent),
    PdfViewerWidget.pixmap v = Some pm ->
    ~ PdfViewerWidget.scale_factor v == 0 ->
    button press = LeftButton -> button release = LeftButton ->
    exists sel v',
      PdfViewerWidget._widget_rect_to_pdf v
        (drag_rect (toPoint (position press)) (toPoint (position release))) = Ok sel /\
      PdfViewerWidget.mouseReleaseEvent
        (moves (PdfViewerWidget.mousePressEvent v press) es) release = Ok (v', [sel]) /\
      PdfViewerWidget._pdf_selection v' = sel /\
      PdfViewerWidget._dragging v' = false.
Proof.
  intros v pm press release es Hp Hs Hb1 Hb2.
  destruct (mousePressEvent_frame v press pm Hp Hb1) as ((P1 & P2 & P3 & _) & PS & PD & PA).
  cbv zeta in P1, P2, P3, PS, PD, PA.
  set (v1 := PdfViewerWidget.mousePressEvent v press) in *. clearbody v1.
  destruct (moves_frame es v1) as ((M1 & M2 & M3 & _) & MS & MD & MA).
  set (v2 := moves v1 es) in *. clearbody v2.
  destruct (widget_rect_to_pdf_result v
              (drag_rect (toPoint (position press)) (toPoint (position release))) Hs)
    as (sel & Hsel & _).
  exists sel.
  destruct (mouseReleaseEvent_commits v2 release pm) with (sel := sel)
    as (v' & H1 & H2 & H3); try congruence.
  - rewrite MA, PA. rewrite <- Hsel.
    apply widget_rect_to_pdf_frame; congruence.
  - exists v'. auto.
Qed.

Lemma drag_commits_span_witness :
  let v := MainWindow.viewer
             (Samples.state_of
                (MainWindow.open_pdf MainWindow.init "/home/user/a.pdf"
                   (Opened Samples.one_page))) in
  let press := Samples.mouse LeftButton 180 20 in
  let release := Samples.mouse LeftButton 259 (-30) in
  let es := [Samples.mouse NoButton 200 0; Samples.mouse NoButton 5 5] in
  exists sel v',
    PdfViewerWidget._widget_rect_to_pdf v
      (drag_rect (toPoint (position press)) (toPoint (position release))) = Ok sel /\
    PdfViewerWidget.mouseReleaseEvent
      (moves (PdfViewerWidget.mousePressEvent v press) es) release = Ok (v', [sel]) /\
    PdfViewerWidget._pdf_selection v' = sel /\
    PdfViewerWidget._dragging v' = false.
Proof.
  intros v press release es.
  apply (drag_commits_span v (mkQPixmap 200 200)).
  - reflexivity.
  - intro H. vm_compute in H. discriminate H.
  - reflexivity.
  - reflexivity.
Defined.

(** A widget rectangle of positive size whose corners, taken to page
    space, lie within the page converts to those corners, unclamped. *)
Lemma inside_converts_unclamped :
  forall (v : PdfViewerWidget.t) (pg : Rect) (s : QRectF),
    PdfViewerWidget.page_rect v = Some pg ->
    0 < PdfViewerWidget.scale_factor v ->
    0 < w s -> 0 < h s ->
    rect_inside pg (corners v s) ->
    exists r,
      PdfViewerWidget._widget_rect_to_pdf v s = Ok (Some r) /\
      rect_eq r (corners v s).
Proof.
  intros v pg s Hpage Hs Hw Hh Hin.
  assert (Hn : rect_normalized (corners v s) /\
               0 < x1 (corners v s) - x0 (corners v s) /\
               0 < y1 (corners v s) - y0 (corners v s)).
  { unfold corners, rect_normalized.
    destruct (PdfViewerWidget.image_offsets v) as [ox oy]. cbn.
    assert (0 < w s / PdfViewerWidget.scale_factor v)
      by (apply Qlt_shift_div_l; lra).
    assert (0 < h s / PdfViewerWidget.scale_factor v)
      by (apply Qlt_shift_div_l; lra).
    repeat split; lra. }
  destruct Hn as (Hn & Hpw & Hph).
  rewrite (widget_rect_to_pdf_with_page v pg s Hpage) by lra.
  set (c0 := corners v s) in *. clearbody c0.
  assert (Hpg : truthy pg = true).
  { apply nonzero_width_truthy. destruct Hin as (I0 & I1 & _).
    unfold width. minmax. }
  rewrite Hpg. cbn [negb]. cbv zeta.
  pose proof (clamp_normalize_inside pg c0 Hn Hin) as Hc.
  set (c := clamp pg (normalize c0)) in *. clearbody c.
  assert (Ew : Qeq_bool (width c) 0 = false).
  { destruct (Qeq_bool (width c) 0) eqn:E; [|reflexivity].
    apply Qeq_bool_eq in E. rewrite (width_compat _ _ Hc) in E.
    unfold width in E. exfalso. minmax. }
  assert (Eh : Qeq_bool (height c) 0 = false).
  { destruct (Qeq_bool (height c) 0) eqn:E; [|reflexivity].
    apply Qeq_bool_eq in E. rewrite (height_compat _ _ Hc) in E.
    unfold height in E. exfalso. minmax. }
  rewrite Ew, Eh. cbn [orb]. exists c. auto.
Qed.

(** X11.  With a page rectangle and a scale above 0, a widget rectangle of
    positive width and height whose corners in page space lie within the
    page is converted to a rectangle that [_pdf_rect_to_widget] takes
    back to it, coordinate by coordinate. *)
Theorem widget_pdf_widget_round_trip :
  forall (v : PdfViewerWidget.t) (pg : Rect) (s : QRectF),
    PdfViewerWidget.page_rect v = Some pg ->
    0 < PdfViewerWidget.scale_factor v ->
    0 < w s -> 0 < h s ->
    rect_inside pg (corners v s) ->
    exists r,
      PdfViewerWidget._widget_rect_to_pdf v s = Ok (Some r) /\
      qrectf_eq (PdfViewerWidget._pdf_rect_to_widget v r) s.
Proof.
  intros v pg s Hpage Hs Hw Hh Hin.
  destruct (inside_converts_unclamped v pg s Hpage Hs Hw Hh Hin) as (r & Hr & Heq).
  exists r. split; [exact Hr|].
  destruct Heq as (E0 & E1 & E2 & E3).
  unfold corners in E0, E1, E2, E3.
  unfold PdfViewerWidget._pdf_rect_to_widget.
  destruct (PdfViewerWidget.image_offsets v) as [ox oy]. cbn in E0, E1, E2, E3.
  set (sc := PdfViewerWidget.scale_factor v) in *.
  assert (X0 : x0 r * sc == xp s - ox) by (rewrite E0; unfold left; field; lra).
  assert (Y0 : y0 r * sc == yp s - oy) by (rewrite E1; unfold top; field; lra).
  assert (X1 : x1 r * sc == xp s - ox + w s) by (rewrite E2; unfold left; field; lra).
  assert (Y1 : y1 r * sc == yp s - oy + h s) by (rewrite E3; unfold top; field; lra).
  unfold QRectF_normalized, QRectF_of_points. cbn.
  destruct (Qlt_le_dec _ 0) as [Hx|Hx]; [exfalso; lra|].
  destruct (Qlt_le_dec _ 0) as [Hy|Hy]; [exfalso; lra|].
  unfold qrectf_eq. cbn. repeat split; lra.
Qed.

Lemma widget_pdf_widget_round_trip_witness :
  let v := PdfViewerWidget.resize
             (MainWindow.viewer
                (Samples.state_of (MainWindow.zoom_in Samples.committed_one_page)))
             400 300 in
  let s := mkQRectF 100 50 120 80 in
  exists r,
    PdfViewerWidget._widget_rect_to_pdf v s = Ok (Some r) /\
    qrectf_eq (PdfViewerWidget._pdf_rect_to_widget v r) s.
Proof.
  intros v s.
  apply (widget_pdf_widget_round_trip v (mkRect 0 0 200 200) s).
  - reflexivity.
  - reflexivity.
  - reflexivity.
  - reflexivity.
  - vm_compute. repeat split; discriminate.
Defined.

(** Press and release at one point: the rectangle is the pixel there. *)
Lemma drag_rect_same_point :
  forall p : QPoint,
    drag_rect p p = mkQRectF (inject_Z (px p)) (inject_Z (py p)) 1 1.
Proof.
  intros [x y]. unfold drag_rect, QRect_normalized, QRect_of_points. cbn.
  assert (Ex : (x <? x - 1)%Z = false) by (apply Z.ltb_ge; lia).
  assert (Ey : (y <? y - 1)%Z = false) by (apply Z.ltb_ge; lia).
  rewrite Ex, Ey. unfold QRectF_of_QRect, QRect_width, QRect_height. cbn.
  replace (x - x + 1)%Z with 1%Z by lia.
  replace (y - y + 1)%Z with 1%Z by lia.
  reflexivity.
Qed.

(** X10.  A press and a release of the left button at the same position,
    over a pixel that lies within the page, commit a selection: the
    rectangle of that one pixel in page space, one over the scale wide
    and high.  (The integer rectangle between two equal points is one
    pixel wide and high.) *)
Theorem click_commits_one_pixel :
  forall (v : PdfViewerWidget.t) (pm : QPixmap) (pg : Rect)
         (press release : QMouseEvent),
    PdfViewerWidget.pixmap v = Some pm ->
    PdfViewerWidget.page_rect v = Some pg ->
    0 < PdfViewerWidget.scale_factor v ->
    button press = LeftButton -> button release = LeftButton ->
    position release = position press ->
    let p := toPoint (position press) in
    let pixel := mkQRectF (inject_Z (px p)) (inject_Z (py p)) 1 1 in
    rect_inside pg (corners v pixel) ->
    exists r v',
      PdfViewerWidget.mouseReleaseEvent
        (PdfViewerWidget.mousePressEvent v press) release = Ok (v', [Some r]) /\
      PdfViewerWidget._pdf_selection v' = Some r /\
      rect_eq r (corners v pixel) /\
      (x1 r - x0 r) * PdfViewerWidget.scale_factor v == 1 /\
      (y1 r - y0 r) * PdfViewerWidget.scale_factor v == 1.
Proof.
  intros v pm pg press release Hp Hpage Hs Hb1 Hb2 Hpos p pixel Hin.
  destruct (inside_converts_unclamped v pg pixel Hpage Hs) as (r & Hr & Heq);
    [reflexivity | reflexivity | exact Hin |].
  destruct (mousePressEvent_frame v press pm Hp Hb1)
    as ((P1 & P2 & P3 & _) & PS & PD & PA).
  cbv zeta in P1, P2, P3, PS, PD, PA.
  set (v1 := PdfViewerWidget.mousePressEvent v press) in *. clearbody v1.
  destruct (mouseReleaseEvent_commits v1 release pm) with (sel := Some r)
    as (v' & H1 & H2 & _); try congruence.
  { rewrite PA, Hpos. fold p. rewrite drag_rect_same_point. fold pixel.
    rewrite <- Hr. apply widget_rect_to_pdf_frame; congruence. }
  exists r, v'.
  split; [exact H1|]. split; [exact H2|]. split; [exact Heq|].
  destruct Heq as (E0 & E1 & E2 & E3). unfold corners in E0, E1, E2, E3.
  destruct (PdfViewerWidget.image_offsets v) as [ox oy]. cbn in E0, E1, E2, E3.
  split.
  - rewrite E2, E0. field. lra.
  - rewrite E3, E1. field. lra.
Qed.

Lemma click_commits_one_pixel_witness :
  let v := MainWindow.viewer
             (Samples.state_of
                (MainWindow.open_pdf MainWindow.init "/home/user/a.pdf"
                   (Opened Samples.one_page))) in
  let e := Samples.mouse LeftButton 30 30 in
  exists r v',
    PdfViewerWidget.mouseReleaseEvent (PdfViewerWidget.mousePressEvent v e) e
      = Ok (v', [Some r]) /\
    PdfViewerWidget._pdf_selection v' = Some r /\
    rect_eq r (corners v (mkQRectF 30 30 1 1)) /\
    (x1 r - x0 r) * PdfViewerWidget.scale_factor v == 1 /\
    (y1 r - y0 r) * PdfViewerWidget.scale_factor v == 1.
Proof.
  intros v e.
  apply (click_commits_one_pixel v (mkQPixmap 200 200) (mkRect 0 0 200 200) e e).
  - reflexivity.
  - reflexivity.
  - reflexivity.
  - reflexivity.
  - reflexivity.
  - reflexivity.
  - vm_compute. repeat split; discriminate.
Defined.


(** ** The overlay after a zoom *)

(** The rubber band after [_update_rubber_band_from_pdf] with a pixmap and
    a selection whose image has positive width and height. *)
Lemma update_rubber_band_shows :
  forall v pm r,
    PdfViewerWidget.pixmap v = Some pm ->
    PdfViewerWidget._pdf_selection v = Some r ->
    truthy r = true ->
    0 < w (PdfViewerWidget._pdf_rect_to_widget v r) ->
    0 < h (PdfViewerWidget._pdf_rect_to_widget v r) ->
    let v' := PdfViewerWidget._update_rubber_band_from_pdf v in
    visible (PdfViewerWidget._rubber_band v') = true /\
    geometry (PdfViewerWidget._rubber_band v')
      = toRect (PdfViewerWidget._pdf_rect_to_widget v r) /\
    PdfViewerWidget._selection_widget_rect v'
      = Some (PdfViewerWidget._pdf_rect_to_widget v r).
Proof.
  intros v pm r Hp Hsel Ht Hw Hh. cbv zeta.
  unfold PdfViewerWidget._update_rubber_band_from_pdf.
  rewrite Hp, Hsel, Ht. cbn [negb].
  set (rect := PdfViewerWidget._pdf_rect_to_widget v r) in *. clearbody rect.
  assert (Ew : Qle_bool (w rect) 0 = false).
  { destruct (Qle_bool (w rect) 0) eqn:E; [|reflexivity].
    apply Qle_bool_iff in E. lra. }
  assert (Eh : Qle_bool (h rect) 0 = false).
  { destruct (Qle_bool (h rect) 0) eqn:E; [|reflexivity].
    apply Qle_bool_iff in E. lra. }
  rewrite Ew, Eh. cbn. repeat split.
Qed.

(** The image of a rectangle of positive width and height at a positive
    scale has positive width and height. *)
Lemma pdf_rect_to_widget_positive :
  forall v r,
    0 < PdfViewerWidget.scale_factor v -> x0 r < x1 r -> y0 r < y1 r ->
    0 < w (PdfViewerWidget._pdf_rect_to_widget v r) /\
    0 < h (PdfViewerWidget._pdf_rect_to_widget v r).
Proof.
  intros v r Hs Hx Hy. unfold PdfViewerWidget._pdf_rect_to_widget.
  destruct (PdfViewerWidget.image_offsets v) as [ox oy].
  set (sc := PdfViewerWidget.scale_factor v) in *.
  unfold QRectF_normalized, QRectF_of_points. cbn.
  destruct (Qlt_le_dec _ 0) as [Hx'|Hx']; [exfalso; nra|].
  destruct (Qlt_le_dec _ 0) as [Hy'|Hy']; [exfalso; nra|].
  cbn. split; nra.
Qed.

(** [set_page] with the selection kept: the rubber band shows the image of
    the selection at the new scale. *)
Lemma set_page_overlay :
  forall v page scale r,
    PdfViewerWidget._pdf_selection v = Some r ->
    0 < scale -> x0 r < x1 r -> y0 r < y1 r ->
    let v' := PdfViewerWidget.set_page v page scale true in
    visible (PdfViewerWidget._rubber_band v') = true /\
    geometry (PdfViewerWidget._rubber_band v')
      = toRect (PdfViewerWidget._pdf_rect_to_widget v' r) /\
    PdfViewerWidget._selection_widget_rect v'
      = Some (PdfViewerWidget._pdf_rect_to_widget v' r).
Proof.
  intros v page scale r Hsel Hs Hx Hy. cbv zeta.
  unfold PdfViewerWidget.set_page. cbn [negb].
  set (v1 := PdfViewerWidget.set_pixmap _ _).
  assert (Q1 : PdfViewerWidget.pixmap v1 =
               Some (PdfViewerWidget._render_page_pixmap page scale)) by reflexivity.
  assert (Q3 : PdfViewerWidget.scale_factor v1 = scale) by reflexivity.
  assert (Q4 : PdfViewerWidget._pdf_selection v1 = Some r) by exact Hsel.
  clearbody v1.
  destruct (update_widget_size_core v1) as (P1 & _ & P3 & P4).
  set (v2 := PdfViewerWidget._update_widget_size v1) in *. clearbody v2.
  assert (Ht : truthy r = true).
  { apply nonzero_width_truthy. unfold width. intro E. minmax. }
  destruct (pdf_rect_to_widget_positive v2 r) as (Hw & Hh);
    [rewrite P3, Q3; exact Hs | exact Hx | exact Hy |].
  destruct (update_rubber_band_shows v2 _ r (eq_trans P1 Q1) (eq_trans P4 Q4)
              Ht Hw Hh) as (V & G & W).
  destruct (update_rubber_band_core v2) as (C1 & _ & C3 & _).
  destruct (update_rubber_band_frame v2) as (F1 & _).
  cbv zeta in V, G, W, F1.
  rewrite (pdf_rect_to_widget_frame v2 _ r C3 C1 F1).
  auto.
Qed.

(** X6.  In a consistent state with a document open and a selection [r]
    stored, each of [zoom_in], [zoom_out] and [reset_zoom] returns, emits
    nothing, and leaves the rubber band shown at the rounded image of [r]
    under the new scale and offsets. *)
Theorem zoom_reprojects_overlay :
  forall (m : MainWindow.t) (r : Rect),
    consistent m -> MainWindow.has_pages m = true ->
    PdfViewerWidget._pdf_selection (MainWindow.viewer m) = Some r ->
    (exists m', MainWindow.zoom_in m = Ok m' /\ overlay_reprojected m m' r) /\
    (exists m', MainWindow.zoom_out m = Ok m' /\ overlay_reprojected m m' r) /\
    (exists m', MainWindow.reset_zoom m = Ok m' /\ overlay_reprojected m m' r).
Proof.
  intros m r C Hp Hsel.
  pose proof C as [C1 C2 C3 C4].
  assert (Hr : x0 r < x1 r /\ y0 r < y1 r).
  { unfold selection_ok in C4. rewrite Hsel in C4.
    destruct C4 as (pg & _ & _ & _ & Hw & Hh). unfold width, height in *.
    split; minmax. }
  destruct Hr as (Hx & Hy).
  assert (Hgen : forall s, 0 < s ->
            exists m',
              MainWindow.load_page (MainWindow.set_scale_factor m s) true = Ok m' /\
              overlay_reprojected m m' r).
  { intros s Hs.
    unfold MainWindow.has_pages in Hp. unfold index_in_range in C1.
    destruct (MainWindow.doc m) as [d|] eqn:Hd; [|discriminate Hp].
    destruct (load_page_in_range (MainWindow.set_scale_factor m s) d true)
      as (p & _ & Hl); [exact Hd | exact (in_range_nonempty _ _ C1) | exact C1 |].
    exists (page_shown (MainWindow.set_scale_factor m s) d p true).
    split; [exact Hl|].
    destruct (page_shown_fields (MainWindow.set_scale_factor m s) d p true)
      as (F1 & _ & _ & F4 & F5).
    unfold overlay_reprojected. rewrite F1, F4, F5.
    destruct (set_page_core (MainWindow.viewer (MainWindow.set_scale_factor m s))
                p (MainWindow.scale_factor (MainWindow.set_scale_factor m s)) true)
      as (_ & S2 & _).
    destruct (set_page_overlay (MainWindow.viewer (MainWindow.set_scale_factor m s))
                p (MainWindow.scale_factor (MainWindow.set_scale_factor m s)) r
                Hsel Hs Hx Hy) as (V & G & _).
    cbv zeta in S2, V, G.
    split; [reflexivity|]. split; [exact S2|]. split; [exact V | exact G]. }
  destruct C3 as (Hlo & Hhi).
  unfold MainWindow.zoom_in, MainWindow.zoom_out, MainWindow.reset_zoom.
  rewrite Hp. cbn [negb]. repeat split; apply Hgen.
  - destruct (zoom_in_scale_bounds _ (conj Hlo Hhi)). lra.
  - destruct (zoom_out_scale_bounds _ (conj Hlo Hhi)). lra.
  - lra.
Qed.

Lemma zoom_reprojects_overlay_witness :
  let m := Samples.committed_one_page in
  let r := mkRect (20 # 2) (20 # 2) (100 # 2) (100 # 2) in
  (exists m', MainWindow.zoom_in m = Ok m' /\ overlay_reprojected m m' r) /\
  (exists m', MainWindow.zoom_out m = Ok m' /\ overlay_reprojected m m' r) /\
  (exists m', MainWindow.reset_zoom m = Ok m' /\ overlay_reprojected m m' r).
Proof.
  intros m r.
  assert (H : MainWindow.run MainWindow.init (Samples.open_and_drag Samples.one_page)
              = Ok m) by (vm_compute; reflexivity).
  apply (zoom_reprojects_overlay m r (run_consistent _ _ _ init_consistent H));
    reflexivity.
Defined.

Example zoom_in_overlay_geometry :
  PdfViewerWidget._rubber_band
    (MainWindow.viewer (Samples.state_of (MainWindow.zoom_in Samples.committed_one_page)))
  = mkQRubberBand (QRect_of_xywh 13 13 50 50) true.
Proof. vm_compute. reflexivity. Qed.


(** ** Opening and paging, further *)

(** The attributes that [clear_selection] of the window leaves alone. *)
Lemma window_clear_selection_frame :
  forall m m', MainWindow.clear_selection m = Ok m' ->
    MainWindow.page_label m' = MainWindow.page_label m /\
    MainWindow.page_info_label m' = MainWindow.page_info_label m /\
    MainWindow.window_title m' = MainWindow.window_title m /\
    MainWindow.clipboard m' = MainWindow.clipboard m /\
    MainWindow.message_boxes m' = MainWindow.message_boxes m.
Proof.
  intros m m' H. unfold MainWindow.clear_selection in H.
  cbn [PdfViewerWidget.clear_selection MainWindow.deliver] in H.
  destruct (MainWindow.update_selection_info _ None) as [m1|] eqn:E;
    cbn [bind] in H; [|discriminate H].
  injection H as <-.
  unfold MainWindow.update_selection_info in E.
  apply update_controls_shape in E. subst m1. repeat split.
Qed.

(** Showing page [i] of the document, as [open_pdf], [next_page] and
    [prev_page] do: [load_page(keep_selection=False)]. *)
Lemma load_page_drop_labels :
  forall (m : MainWindow.t) (d : Document),
    MainWindow.doc m = Some d ->
    (0 <= MainWindow.current_page_index m < page_count d)%Z ->
    exists m' p,
      MainWindow.load_page m false = Ok m' /\
      nth_error d (Z.to_nat (MainWindow.current_page_index m)) = Some p /\
      MainWindow.page_label m' = page_label_text m d /\
      MainWindow.page_info_label m' = page_label_text m d /\
      MainWindow.window_title m' = MainWindow.window_title m /\
      MainWindow.clipboard m' = MainWindow.clipboard m /\
      MainWindow.message_boxes m' = MainWindow.message_boxes m.
Proof.
  intros m d Hd Hi.
  destruct (load_page_drop m d Hd Hi) as (m' & p & Hl & Hn & _).
  exists m', p. split; [exact Hl|]. split; [exact Hn|].
  destruct (load_page_in_range m d false Hd (in_range_nonempty _ _ Hi) Hi)
    as (p' & Hn' & Hl').
  rewrite Hl' in Hl.
  destruct (window_clear_selection_frame _ _ Hl) as (L1 & L2 & L3 & L4 & L5).
  rewrite L1, L2, L3, L4, L5. repeat split.
Qed.

(** X8.  Opening a document that has pages, from any state: [open_pdf]
    returns with the document set, the page number 0, the scale 1.0 in
    window and viewer, the first page's rectangle in the viewer, no
    selection, one [None] emitted, the page label [Page: 1 / n] and the
    file's name in the window title. *)
Theorem open_pdf_shows_first_page :
  forall (m : MainWindow.t) (path : string) (d : Document),
    path <> ""%string -> d <> [] ->
    exists m' p,
      MainWindow.open_pdf m path (Opened d) = Ok m' /\
      MainWindow.doc m' = Some d /\
      MainWindow.current_page_index m' = 0%Z /\
      MainWindow.scale_factor m' = 1 /\
      hd_error d = Some p /\
      PdfViewerWidget.page_rect (MainWindow.viewer m') = Some (rect p) /\
      PdfViewerWidget.scale_factor (MainWindow.viewer m') = 1 /\
      PdfViewerWidget._pdf_selection (MainWindow.viewer m') = None /\
      MainWindow.emitted m' = (MainWindow.emitted m ++ [None])%list /\
      MainWindow.page_label m' = ("Page: 1 / " ++ str_of_Z (page_count d))%string /\
      MainWindow.window_title m' = ("PDF Rect Picker - " ++ path_name path)%string.
Proof.
  intros m path d Hpath Hne. unfold MainWindow.open_pdf.
  destruct (String.eqb path "") eqn:E; [apply String.eqb_eq in E; contradiction|].
  set (m0 := MainWindow.set_scale_factor _ 1).
  assert (Hd0 : MainWindow.doc m0 = Some d) by reflexivity.
  assert (Hi0 : (0 <= MainWindow.current_page_index m0 < page_count d)%Z).
  { cbn. destruct d; [congruence | cbn; lia]. }
  destruct (load_page_drop m0 d Hd0 Hi0)
    as (m1 & p & Hl & Hn & Hdoc & Hidx & Hsc & Hem & Hsel & Hpage & Hvs).
  destruct (load_page_drop_labels m0 d Hd0 Hi0)
    as (m1' & p' & Hl' & _ & L1 & _).
  rewrite Hl in Hl'. injection Hl' as <-.
  rewrite Hl. cbn [bind].
  destruct (update_controls_ok
              (MainWindow.set_window_title m1
                 ("PDF Rect Picker - " ++ path_name path)%string)) as (b & Hb).
  { cbn. rewrite Hdoc. cbn. congruence. }
  rewrite Hb. eexists. exists p. split; [reflexivity|]. cbn.
  rewrite Hdoc, Hidx, Hsc, Hem, Hsel, Hpage, Hvs, L1.
  repeat split. destruct d; [congruence | exact Hn].
Qed.

Lemma open_pdf_shows_first_page_witness :
  let m := Samples.state_of (MainWindow.zoom_in Samples.committed_one_page) in
  exists m' p,
    MainWindow.open_pdf m "/home/user/b.pdf" (Opened Samples.two_pages) = Ok m' /\
    MainWindow.doc m' = Some Samples.two_pages /\
    MainWindow.current_page_index m' = 0%Z /\
    MainWindow.scale_factor m' = 1 /\
    hd_error Samples.two_pages = Some p /\
    PdfViewerWidget.page_rect (MainWindow.viewer m') = Some (rect p) /\
    PdfViewerWidget.scale_factor (MainWindow.viewer m') = 1 /\
    PdfViewerWidget._pdf_selection (MainWindow.viewer m') = None /\
    MainWindow.emitted m' = (MainWindow.emitted m ++ [None])%list /\
    MainWindow.page_label m' =
      ("Page: 1 / " ++ str_of_Z (page_count Samples.two_pages))%string /\
    MainWindow.window_title m' =
      ("PDF Rect Picker - " ++ path_name "/home/user/b.pdf")%string.
Proof.
  intro m. apply open_pdf_shows_first_page; discriminate.
Defined.

(** Moving by one page within the document. *)
Lemma turn_page :
  forall (m : MainWindow.t) (d : Document) (i : Z),
    MainWindow.doc m = Some d -> (0 <= i < page_count d)%Z ->
    exists m' p,
      (m1 <- MainWindow.load_page (MainWindow.set_current_page_index m i) false ;;
       MainWindow._update_controls m1) = Ok m' /\
      nth_error d (Z.to_nat i) = Some p /\
      MainWindow.doc m' = Some d /\
      MainWindow.current_page_index m' = i /\
      MainWindow.scale_factor m' = MainWindow.scale_factor m /\
      PdfViewerWidget.page_rect (MainWindow.viewer m') = Some (rect p) /\
      PdfViewerWidget.scale_factor (MainWindow.viewer m') = MainWindow.scale_factor m /\
      PdfViewerWidget._pdf_selection (MainWindow.viewer m') = None /\
      MainWindow.emitted m' = (MainWindow.emitted m ++ [None])%list /\
      MainWindow.page_label m' =
        ("Page: " ++ str_of_Z (i + 1) ++ " / " ++ str_of_Z (page_count d))%string.
Proof.
  intros m d i Hd Hi.
  set (m0 := MainWindow.set_current_page_index m i).
  assert (Hd0 : MainWindow.doc m0 = Some d) by exact Hd.
  destruct (load_page_drop m0 d Hd0 Hi)
    as (m1 & p & Hl & Hn & Hdoc & Hidx & Hsc & Hem & Hsel & Hpage & Hvs).
  destruct (load_page_drop_labels m0 d Hd0 Hi) as (m1' & p' & Hl' & _ & L1 & _).
  rewrite Hl in Hl'. injection Hl' as <-.
  rewrite Hl. cbn [bind].
  destruct (update_controls_ok m1) as (b & Hb).
  { rewrite Hdoc, Hd0. intro K. injection K as ->. cbn in Hi. lia. }
  rewrite Hb. eexists. exists p. split; [reflexivity|]. cbn.
  rewrite Hdoc, Hidx, Hsc, Hem, Hsel, Hpage, Hvs, L1.
  repeat split; assumption.
Qed.

(** X7.  With a next page in the document, [next_page] and then
    [prev_page] both return and come back to the page number, with the
    document and the scale as before, the rectangle of that page in the
    viewer, no selection, and two [None] emitted. *)
Theorem next_then_prev :
  forall (m : MainWindow.t) (d : Document),
    MainWindow.doc m = Some d ->
    (0 <= MainWindow.current_page_index m < page_count d - 1)%Z ->
    exists m1 m2 p,
      MainWindow.next_page m = Ok m1 /\
      MainWindow.current_page_index m1 = (MainWindow.current_page_index m + 1)%Z /\
      MainWindow.prev_page m1 = Ok m2 /\
      MainWindow.current_page_index m2 = MainWindow.current_page_index m /\
      MainWindow.doc m2 = Some d /\
      MainWindow.scale_factor m2 = MainWindow.scale_factor m /\
      nth_error d (Z.to_nat (MainWindow.current_page_index m)) = Some p /\
      PdfViewerWidget.page_rect (MainWindow.viewer m2) = Some (rect p) /\
      PdfViewerWidget._pdf_selection (MainWindow.viewer m2) = None /\
      MainWindow.emitted m2 = (MainWindow.emitted m ++ [None; None])%list.
Proof.
  intros m d Hd Hi.
  assert (Ht : doc_truthy d = true).
  { destruct d; [cbn in Hi; lia | reflexivity]. }
  destruct (turn_page m d (MainWindow.current_page_index m + 1) Hd)
    as (m1 & p1 & H1 & _ & D1 & I1 & S1 & _ & _ & _ & E1 & _); [lia|].
  destruct (turn_page m1 d (MainWindow.current_page_index m1 - 1) D1)
    as (m2 & p & H2 & N2 & D2 & I2 & S2 & P2 & _ & L2 & E2 & _); [lia|].
  exists m1, m2, p.
  split.
  { unfold MainWindow.next_page. rewrite Hd, Ht.
    replace (MainWindow.current_page_index m <? page_count d - 1)%Z with true
      by (symmetry; apply Z.ltb_lt; lia).
    exact H1. }
  split; [exact I1|].
  split.
  { unfold MainWindow.prev_page, MainWindow.has_pages. rewrite D1, Ht.
    replace (0 <? MainWindow.current_page_index m1)%Z with true
      by (symmetry; apply Z.ltb_lt; lia).
    exact H2. }
  replace (MainWindow.current_page_index m1 - 1)%Z
    with (MainWindow.current_page_index m) in * by lia.
  rewrite E2, E1, <- app_assoc.
  repeat split; try assumption. congruence.
Qed.

Lemma next_then_prev_witness :
  let m := Samples.committed_two_pages in
  exists m1 m2 p,
    MainWindow.next_page m = Ok m1 /\
    MainWindow.current_page_index m1 = (MainWindow.current_page_index m + 1)%Z /\
    MainWindow.prev_page m1 = Ok m2 /\
    MainWindow.current_page_index m2 = MainWindow.current_page_index m /\
    MainWindow.doc m2 = Some Samples.two_pages /\
    MainWindow.scale_factor m2 = MainWindow.scale_factor m /\
    nth_error Samples.two_pages (Z.to_nat (MainWindow.current_page_index m)) = Some p /\
    PdfViewerWidget.page_rect (MainWindow.viewer m2) = Some (rect p) /\
    PdfViewerWidget._pdf_selection (MainWindow.viewer m2) = None /\
    MainWindow.emitted m2 = (MainWindow.emitted m ++ [None; None])%list.
Proof.
  intro m. apply (next_then_prev m Samples.two_pages eq_refl).
  change (0 <= 0 < 2 - 1)%Z. lia.
Defined.
